(** * A shallow embedding of the note-taking backend (server.js)

    The development follows the Express application of [src/server.js] and
    the three earlier variants of the same file kept in
    [src/unnamed/part_000] (Gemini, Hugging Face, first Gemini version).
    The note routes and the authentication middleware are textually the same
    in all four files and are embedded once; the text-assist routes differ
    and are embedded per file.

    What lies outside the sources is taken as follows.
    - The identity provider ([client.verifyIdToken]) and the generative-text
      providers are fields of the class [Services]: functions from the
      arguments the handler passes to either a result or a thrown error.
      Every call is recorded in the outcome, so that "no call is made" is a
      statement about a list.
    - The Mongoose model [Note] is an in-memory collection keyed by [_id].
      Its operations follow the documented behaviour of the calls the
      handlers make, as Mongoose 6 and later have it: a key of the update
      document that holds [undefined] is removed before the update is sent
      and the stored field stays as it is, a key that holds [null] stores
      [null]; the [_id] of a filter is cast to an ObjectId and a failed cast
      rejects the query; [required] is checked on [save].
    - [Date.now()] is read once per request and passed in as [now].
    - Request body fields are JSON text, JSON [null], or absent; a body
      with a number, a boolean, an array or an object under [title],
      [content], [text] or [topic] is outside the development.
    - A [string] is the UTF-8 encoding of the JavaScript string. *)

From Stdlib Require Import Ascii String.
From stdpp Require Import gmap strings list sorting.

Set Default Proof Using "Type".
Local Open Scope string_scope.

(** ** JavaScript primitives used by the handlers *)

Module JS.

(** A JSON value as the handlers meet it in [req.body]; [undefined] is the
    absence of the key, so a field read has type [option json]. *)
Inductive json :=
| JNull
| JString (s : string).

#[global] Instance json_eq_dec : EqDecision json.
Proof. solve_decision. Defined.

(** [!!v] *)
Definition truthy (v : option json) : bool :=
  match v with
  | Some (JString s) => negb (bool_decide (s = ""))
  | _ => false
  end.

(** [a || b] with a text literal on the right *)
Definition or_else (a : option json) (b : string) : option json :=
  if truthy a then a else Some (JString b).

(** [s.split(sep)] for a one-character separator *)
Fixpoint split (sep : ascii) (s : string) : list string :=
  match s with
  | EmptyString => [EmptyString]
  | String c s' =>
      if decide (c = sep) then EmptyString :: split sep s'
      else match split sep s' with
           | [] => [String c EmptyString]
           | w :: ws => String c w :: ws
           end
  end.

(** The token in the words of the specification: the substring after the
    first space, if there is a space. *)
Fixpoint after_first_space (s : string) : option string :=
  match s with
  | EmptyString => None
  | String c s' => if decide (c = " "%char) then Some s' else after_first_space s'
  end.

(** The text before the first space; the whole text if there is none. *)
Fixpoint up_to_space (s : string) : string :=
  match s with
  | EmptyString => EmptyString
  | String c s' =>
      if decide (c = " "%char) then EmptyString else String c (up_to_space s')
  end.

(** The text between the first and the second space (or the end). *)
Definition second_segment (s : string) : option string :=
  up_to_space <$> after_first_space s.

Fixpoint contains_space (s : string) : bool :=
  match s with
  | EmptyString => false
  | String c s' => bool_decide (c = " "%char) || contains_space s'
  end.

(** White space and line terminators removed by [String.prototype.trim].
    Those of one byte: TAB, LF, VT, FF, CR and SPACE. *)
Definition is_space (c : ascii) : bool :=
  let n := nat_of_ascii c in
  (bool_decide (n = 32) || (bool_decide (9 ≤ n) && bool_decide (n ≤ 13)))%nat.

(** NO-BREAK SPACE, U+00A0, the bytes C2 A0. *)
Definition is_space2 (c1 c2 : ascii) : bool :=
  (bool_decide (nat_of_ascii c1 = 194) && bool_decide (nat_of_ascii c2 = 160))%nat.

(** Those of three bytes: U+1680 (E1 9A 80), U+2000 to U+200A (E2 80 80 to
    E2 80 8A), U+2028 and U+2029 (E2 80 A8, E2 80 A9), U+202F (E2 80 AF),
    U+205F (E2 81 9F), U+3000 (E3 80 80) and U+FEFF (EF BB BF). *)
Definition is_space3 (c1 c2 c3 : ascii) : bool :=
  let a := nat_of_ascii c1 in
  let b := nat_of_ascii c2 in
  let c := nat_of_ascii c3 in
  (bool_decide (a = 225) && bool_decide (b = 154) && bool_decide (c = 128)
   || bool_decide (a = 226) && bool_decide (b = 128)
      && (bool_decide (128 ≤ c) && bool_decide (c ≤ 138)
          || bool_decide (c = 168) || bool_decide (c = 169)
          || bool_decide (c = 175))
   || bool_decide (a = 226) && bool_decide (b = 129) && bool_decide (c = 159)
   || bool_decide (a = 227) && bool_decide (b = 128) && bool_decide (c = 128)
   || bool_decide (a = 239) && bool_decide (b = 187) && bool_decide (c = 191))%nat.

(** Text made of white space only. *)
Fixpoint all_space (s : string) : bool :=
  match s with
  | EmptyString => true
  | String c1 s1 =>
      if is_space c1 then all_space s1
      else match s1 with
           | EmptyString => false
           | String c2 s2 =>
               if is_space2 c1 c2 then all_space s2
               else match s2 with
                    | EmptyString => false
                    | String c3 s3 =>
                        if is_space3 c1 c2 c3 then all_space s3 else false
                    end
           end
  end.

Fixpoint trim_start (s : string) : string :=
  match s with
  | EmptyString => EmptyString
  | String c1 s1 =>
      if is_space c1 then trim_start s1
      else match s1 with
           | EmptyString => s
           | String c2 s2 =>
               if is_space2 c1 c2 then trim_start s2
               else match s2 with
                    | EmptyString => s
                    | String c3 s3 =>
                        if is_space3 c1 c2 c3 then trim_start s3 else s
                    end
           end
  end.

(** The longest suffix made of white space is dropped. *)
Fixpoint trim_end (s : string) : string :=
  match s with
  | EmptyString => EmptyString
  | String c s' => if all_space s then EmptyString else String c (trim_end s')
  end.

Definition trim (s : string) : string := trim_end (trim_start s).

(** The text "\n\n" of the prompt templates. *)
Definition nl2 : string := String "010" (String "010" EmptyString).

Definition is_digit (c : ascii) : bool :=
  let n := nat_of_ascii c in (bool_decide (48 ≤ n) && bool_decide (n ≤ 57))%nat.

(** [s.split(/\d+\./)]: [cur] is the piece being read, [dg] the run of
    digits just read, which is dropped with the dot that follows it and
    kept otherwise. *)
Fixpoint split_numbered (cur dg s : string) : list string :=
  match s with
  | EmptyString => [cur +:+ dg]
  | String c s' =>
      if is_digit c then split_numbered cur (dg +:+ String c EmptyString) s'
      else if bool_decide (c = "."%char) && negb (bool_decide (dg = ""))
      then cur :: split_numbered "" "" s'
      else split_numbered (cur +:+ dg +:+ String c EmptyString) "" s'
  end.

Fixpoint contains_dot (s : string) : bool :=
  match s with
  | EmptyString => false
  | String c s' => bool_decide (c = "."%char) || contains_dot s'
  end.

End JS.
Import JS.

(** ** Data model *)

(** A twelve-byte ObjectId, as a number. *)
Definition ObjectId := N.

(** The paths of [noteSchema]; [None] in [title] and [content] is a stored
    [null].  Dates are milliseconds since the epoch. *)
Record NoteFields := mkFields {
  userId : string;
  title : option string;
  content : option string;
  createdAt : Z;
  updatedAt : Z
}.

(** A document: its [_id] and its fields. *)
Record Note := mkNote {
  _id : ObjectId;
  fields : NoteFields
}.

#[global] Instance NoteFields_eq_dec : EqDecision NoteFields.
Proof. solve_decision. Defined.
#[global] Instance Note_eq_dec : EqDecision Note.
Proof. solve_decision. Defined.

(** The [notes] collection. *)
Abbreviation collection := (gmap ObjectId NoteFields).

Definition documents (s : collection) : list Note :=
  (λ p, mkNote p.1 p.2) <$> map_to_list s.

(** What [res.json(..)] / [res.send()] is given. *)
Inductive payload :=
| Error (error : string)
| ErrorDetails (error details : string)
| OneNote (n : Note)
| Notes (l : list Note)
| Keyed (key value : string)
| Ideas (ideas : list string)
| Empty.

Record response := mkResponse {
  status : Z;
  sent : payload
}.

(** [req.user] *)
Record User := mkUser {
  id : string;
  email : string;
  name : string
}.

(** The payload of a verified ticket. *)
Record TokenPayload := mkPayload {
  sub : string;
  payload_email : string;
  payload_name : string
}.

(** The parts of a request the handlers read. *)
Record request := mkRequest {
  authorization : option string;   (* req.headers['authorization'] *)
  params_id : string;              (* req.params.id *)
  body : gmap string json          (* req.body *)
}.

(** Calls that leave the process. *)
Inductive call :=
| VerifyIdToken (idToken audience : string)
| ChatCompletion (content : string)
| GenerateContent (prompt : string)
| HFQuery (model inputs : string).

(** A store operation or an awaited call either returns or throws. *)
Inductive result (A : Type) :=
| Ok (a : A)
| Throw (message : string).
Arguments Ok {A} a.
Arguments Throw {A} message.

(** What a request leaves behind. *)
Record outcome := mkOutcome {
  reply : response;
  store : collection;
  calls : list call
}.

Definition json_ (code : Z) (p : payload) : response := mkResponse code p.

(** ** What the process calls

    The services outside the sources, as the handlers use them. *)
Class Services := {
  (** [process.env.GOOGLE_CLIENT_ID] *)
  CLIENT_ID : string;
  (** [client.verifyIdToken({idToken, audience})] followed by
      [ticket.getPayload()]: the payload, or the error thrown. *)
  verifyIdToken : string → string → result TokenPayload;
  (** The cast Mongoose applies to the [_id] of a filter; [None] when the
      value is no ObjectId and the query is rejected with a CastError. *)
  castObjectId : string → option ObjectId;
  (** [openai.chat.completions.create] with one user message, reduced to
      [response.choices[0].message.content]; [Throw] carries
      [error.message]. *)
  createChatCompletion : string → result string;
  (** [model.generateContent(prompt)] of the Gemini files, reduced to
      [(await result.response).text()]. *)
  generateContent : string → result string;
  (** [query(model, { inputs, parameters })] of the Hugging Face file,
      reduced to the field the route reads from [result[0]]
      ([summary_text] or [generated_text]). *)
  query : string → string → result string
}.

(** ** A concrete environment

    Used to run the handlers on examples: an identity provider that knows
    two tokens, the textual form of an ObjectId (twenty-four hexadecimal
    digits), and providers that answer with a fixed text. *)

Module Sample.

Definition client_id : string := "notes.apps.googleusercontent.com".

Definition verify (idToken audience : string) : result TokenPayload :=
  if bool_decide (audience = client_id) then
    if bool_decide (idToken = "alice.jwt")
    then Ok (mkPayload "alice" "alice@example.org" "Alice")
    else if bool_decide (idToken = "bob.jwt")
    then Ok (mkPayload "bob" "bob@example.org" "Bob")
    else Throw "Invalid token signature"
  else Throw "Wrong recipient, payload audience != requiredAudience".

Definition hex_digit (c : ascii) : option N :=
  let n := N_of_ascii c in
  if bool_decide (48 ≤ n)%N && bool_decide (n ≤ 57)%N then Some (n - 48)%N
  else if bool_decide (97 ≤ n)%N && bool_decide (n ≤ 102)%N then Some (n - 87)%N
  else if bool_decide (65 ≤ n)%N && bool_decide (n ≤ 70)%N then Some (n - 55)%N
  else None.

Fixpoint hex_value (acc : N) (s : string) : option N :=
  match s with
  | EmptyString => Some acc
  | String c s' =>
      match hex_digit c with
      | Some d => hex_value (16 * acc + d)%N s'
      | None => None
      end
  end.

(** The textual form of an ObjectId: twenty-four hexadecimal digits, read
    as a number.  A short word such as abc is none. *)
Definition cast (p : string) : option ObjectId :=
  if bool_decide (String.length p = 24%nat) then hex_value 0%N p else None.

Definition provider (prompt : string) : result string := Ok "- a summary".

Definition hf (model inputs : string) : result string := Ok " first 2. second".

Definition services : Services :=
  {| CLIENT_ID := client_id;
     verifyIdToken := verify;
     castObjectId := cast;
     createChatCompletion := provider;
     generateContent := provider;
     query := hf |}.

Definition alice : request :=
  mkRequest (Some "Bearer alice.jwt") "000000000000000000000000" ∅.

Definition bob : request :=
  mkRequest (Some "Bearer bob.jwt") "000000000000000000000000" ∅.

Definition anonymous : request :=
  mkRequest None "000000000000000000000000" ∅.

Definition expired : request :=
  mkRequest (Some "Bearer expired.jwt") "000000000000000000000000" ∅.

Definition bare_token : request :=
  mkRequest (Some "alice.jwt") "000000000000000000000000" ∅.

Definition bearer_only : request :=
  mkRequest (Some "Bearer") "000000000000000000000000" ∅.

Definition two_words : request :=
  mkRequest (Some "Bearer a b") "000000000000000000000000" ∅.

Definition alice_malformed_id : request :=
  mkRequest (Some "Bearer alice.jwt") "abc" ∅.

Definition alice_sets_owner : request :=
  mkRequest (Some "Bearer alice.jwt") "000000000000000000000000"
            {[ "userId" := JString "bob" ]}.

Definition alice_user : User := mkUser "alice" "alice@example.org" "Alice".

Definition bob_user : User := mkUser "bob" "bob@example.org" "Bob".

Definition note_of_alice : NoteFields :=
  mkFields "alice" (Some "Shopping") (Some "milk, eggs") 1000 2000.

Definition one_note : collection := {[ 0%N := note_of_alice ]}.

Definition alice_writes : request :=
  mkRequest (Some "Bearer alice.jwt") "000000000000000000000000"
            {[ "title" := JString "Plan"; "content" := JString "call Bob" ]}.

Definition alice_renames : request :=
  mkRequest (Some "Bearer alice.jwt") "000000000000000000000000"
            {[ "title" := JString "Groceries" ]}.

Definition alice_merged : request :=
  mkRequest (Some "Bearer alice.jwt") "000000000000000000000000"
            {[ "title" := JString "Groceries"; "content" := JString "call Bob" ]}.

Definition alice_empty_title : request :=
  mkRequest (Some "Bearer alice.jwt") "000000000000000000000000"
            {[ "title" := JString "" ]}.

Definition alice_basic : request :=
  mkRequest (Some "Basic alice.jwt") "000000000000000000000000" ∅.

Definition alice_second_note : request :=
  mkRequest (Some "Bearer alice.jwt") "000000000000000000000001" ∅.

Definition alice_asks (text : string) : request :=
  mkRequest (Some "Bearer alice.jwt") "" {[ "text" := JString text ]}.

(** A space, a NO-BREAK SPACE (C2 A0), a LINE SEPARATOR (E2 80 A8) and a
    tabulation. *)
Definition blank : string :=
  String " " (String "194" (String "160" (String "226" (String "128"
    (String "168" (String "009" EmptyString)))))).

Definition anonymous_topic : request :=
  mkRequest None "" {[ "topic" := JString "tea" ]}.

Definition bob_topic : request :=
  mkRequest (Some "Bearer bob.jwt") "" {[ "topic" := JString "tea" ]}.

Definition nobody : request :=
  mkRequest (Some "Bearer nobody.jwt") "000000000000000000000000" ∅.

Definition nobody_user : User := mkUser "" "" "".

Definition second_note_of_alice : NoteFields :=
  mkFields "alice" (Some "Ideas") (Some "") 1500 2500.

Definition note_of_bob : NoteFields :=
  mkFields "bob" (Some "Private") (Some "keys") 1200 2800.

Definition three_notes : collection :=
  {[ 0%N := note_of_alice; 1%N := second_note_of_alice; 2%N := note_of_bob ]}.

(** An identity provider whose ticket carries an empty subject, and a
    model that answers with one sentence. *)
Definition verify_nobody (idToken audience : string) : result TokenPayload :=
  if bool_decide (idToken = "nobody.jwt") then Ok (mkPayload "" "" "")
  else verify idToken audience.

Definition hf_plain (model inputs : string) : result string :=
  Ok "brew it cold".

Definition failing_provider (prompt : string) : result string :=
  Throw "429 You exceeded your current quota".

Definition other_services : Services :=
  {| CLIENT_ID := client_id;
     verifyIdToken := verify_nobody;
     castObjectId := cast;
     createChatCompletion := failing_provider;
     generateContent := provider;
     query := hf_plain |}.

End Sample.

(** ** The server *)

Section Server.

Context {services : Services}.

(** *** The Mongoose model [Note] *)

(** Cast of a value to the schema type [String]. *)
Definition castString (v : option json) : option string :=
  match v with
  | Some (JString s) => Some s
  | _ => None
  end.

(** The object literal given to [new Note(..)]. *)
Record NoteInit := mkInit {
  init_userId : string;
  init_title : option json;
  init_content : option json
}.

(** [new Note(o)]: a path left [undefined] takes the schema default;
    [createdAt] and [updatedAt] default to [Date.now]. *)
Definition new_Note (o : NoteInit) (now : Z) : NoteFields :=
  {| userId := init_userId o;
     title := match init_title o with
              | None => Some "Untitled Note"
              | v => castString v
              end;
     content := match init_content o with
                | None => Some ""
                | v => castString v
                end;
     createdAt := now;
     updatedAt := now |}.

(** [note.save()]: validation ([userId] is [required], which an empty
    string does not meet), then insertion under an [_id] no document of
    the collection has. *)
Definition save (f : NoteFields) (s : collection) : result Note * collection :=
  if bool_decide (userId f = "")
  then (Throw "Note validation failed: userId: Path `userId` is required.", s)
  else let i := fresh (dom s) in (Ok (mkNote i f), <[i := f]> s).

(** [Note.find({ userId })] *)
Definition find (u : string) (s : collection) : result (list Note) :=
  Ok (filter (λ n, userId (fields n) = u) (documents s)).

(** [.sort({ updatedAt: -1 })] *)
Definition newer_first (a b : Note) : Prop :=
  (updatedAt (fields b) ≤ updatedAt (fields a))%Z.

#[global] Instance newer_first_dec a b : Decision (newer_first a b).
Proof. unfold newer_first. apply _. Defined.

Definition sort_updatedAt_desc (l : list Note) : list Note :=
  merge_sort newer_first l.

(** [Note.findOne({ _id, userId })] *)
Definition findOne (p u : string) (s : collection) : result (option Note) :=
  match castObjectId p with
  | None => Throw "Cast to ObjectId failed"
  | Some i =>
      match s !! i with
      | Some f => if bool_decide (userId f = u) then Ok (Some (mkNote i f))
                  else Ok None
      | None => Ok None
      end
  end.

(** The update document [{ title, content, updatedAt }]. *)
Record UpdateDoc := mkUpdate {
  set_title : option json;
  set_content : option json;
  set_updatedAt : Z
}.

(** The update as the store applies it: a key left [undefined] is not
    part of what is sent, so its field stays. *)
Definition apply_update (d : UpdateDoc) (f : NoteFields) : NoteFields :=
  {| userId := userId f;
     title := match set_title d with
              | None => title f
              | v => castString v
              end;
     content := match set_content d with
                | None => content f
                | v => castString v
                end;
     createdAt := createdAt f;
     updatedAt := set_updatedAt d |}.

(** [Note.findOneAndUpdate({ _id, userId }, d, { new })] *)
Definition findOneAndUpdate (p u : string) (d : UpdateDoc) (new : bool)
    (s : collection) : result (option Note) * collection :=
  match findOne p u s with
  | Throw m => (Throw m, s)
  | Ok None => (Ok None, s)
  | Ok (Some n) =>
      let f' := apply_update d (fields n) in
      (Ok (Some (if new then mkNote (_id n) f' else n)), <[_id n := f']> s)
  end.

(** [Note.findOneAndDelete({ _id, userId })] *)
Definition findOneAndDelete (p u : string) (s : collection)
    : result (option Note) * collection :=
  match findOne p u s with
  | Throw m => (Throw m, s)
  | Ok None => (Ok None, s)
  | Ok (Some n) => (Ok (Some n), delete (_id n) s)
  end.

(** *** Authentication middleware *)

(** [authHeader && authHeader.split(' ')[1]] *)
Definition token (authHeader : option string) : option string :=
  match authHeader with
  | None => None
  | Some h => if bool_decide (h = "") then Some h else split " " h !! 1%nat
  end.

Inductive middleware :=
| Next (user : User)
| Respond (r : response).

Definition authenticateToken (req : request) : middleware * list call :=
  let authHeader := authorization req in
  match token authHeader with
  | None => (Respond (json_ 401 (Error "Unauthorized")), [])
  | Some tok =>
      if bool_decide (tok = "")
      then (Respond (json_ 401 (Error "Unauthorized")), [])
      else match verifyIdToken tok CLIENT_ID with
           | Ok p =>
               (Next {| id := sub p; email := payload_email p;
                        name := payload_name p |},
                [VerifyIdToken tok CLIENT_ID])
           | Throw _ =>
               (Respond (json_ 403 (Error "Invalid token")),
                [VerifyIdToken tok CLIENT_ID])
           end
  end.

(** A route registered as [app.METHOD(path, authenticateToken, handler)]. *)
Definition handler := User → request → Z → collection → outcome.

Definition guarded (h : handler) (req : request) (now : Z) (s : collection)
    : outcome :=
  match authenticateToken req with
  | (Respond r, cs) => mkOutcome r s cs
  | (Next user, cs) =>
      let o := h user req now s in
      mkOutcome (reply o) (store o) (cs ++ calls o)
  end.

(** *** Note routes *)

(** GET /api/notes *)
Definition get_notes : handler := λ user req now s,
  match find (id user) s with
  | Ok l => mkOutcome (json_ 200 (Notes (sort_updatedAt_desc l))) s []
  | Throw _ => mkOutcome (json_ 500 (Error "Failed to fetch notes")) s []
  end.

(** GET /api/notes/:id *)
Definition get_note : handler := λ user req now s,
  match findOne (params_id req) (id user) s with
  | Ok None => mkOutcome (json_ 404 (Error "Note not found")) s []
  | Ok (Some note) => mkOutcome (json_ 200 (OneNote note)) s []
  | Throw _ => mkOutcome (json_ 500 (Error "Failed to fetch note")) s []
  end.

(** POST /api/notes *)
Definition post_notes : handler := λ user req now s,
  let title := body req !! "title" in
  let content := body req !! "content" in
  let note := new_Note {| init_userId := id user;
                          init_title := or_else title "Untitled Note";
                          init_content := or_else content "" |} now in
  match save note s with
  | (Ok saved, s') => mkOutcome (json_ 201 (OneNote saved)) s' []
  | (Throw _, s') => mkOutcome (json_ 500 (Error "Failed to create note")) s' []
  end.

(** PUT /api/notes/:id *)
Definition put_note : handler := λ user req now s,
  let title := body req !! "title" in
  let content := body req !! "content" in
  match findOneAndUpdate (params_id req) (id user)
          {| set_title := title; set_content := content;
             set_updatedAt := now |} true s with
  | (Ok None, s') => mkOutcome (json_ 404 (Error "Note not found")) s' []
  | (Ok (Some note), s') => mkOutcome (json_ 200 (OneNote note)) s' []
  | (Throw _, s') => mkOutcome (json_ 500 (Error "Failed to update note")) s' []
  end.

(** DELETE /api/notes/:id *)
Definition delete_note : handler := λ user req now s,
  match findOneAndDelete (params_id req) (id user) s with
  | (Ok None, s') => mkOutcome (json_ 404 (Error "Note not found")) s' []
  | (Ok (Some _), s') => mkOutcome (mkResponse 204 Empty) s' []
  | (Throw _, s') => mkOutcome (json_ 500 (Error "Failed to delete note")) s' []
  end.

(** *** Text-assist routes *)

(** POST /api/ai/summarize of server.js; [!text?.trim()] is true for an
    absent or [null] text and for text that trims to nothing. *)
Definition post_ai_summarize : handler := λ user req now s,
  let text := body req !! "text" in
  let required := mkOutcome (json_ 400 (Error "Text is required")) s [] in
  match text with
  | None | Some JNull => required
  | Some (JString t) =>
      if bool_decide (trim t = "") then required
      else
        let content :=
          "Summarize this in 3-5 concise bullet points:" +:+ nl2 +:+ t in
        match createChatCompletion content with
        | Ok summary =>
            mkOutcome (json_ 200 (Keyed "summary" summary)) s
                      [ChatCompletion content]
        | Throw message =>
            mkOutcome (json_ 500 (ErrorDetails "Failed to summarize text" message))
                      s [ChatCompletion content]
        end
  end.

(** The text of a field as a template literal or a JSON payload carries it;
    the routes reach it with a truthy field only, that is with text. *)
Definition interpolate (v : option json) : string :=
  match v with
  | Some (JString t) => t
  | Some JNull => "null"
  | None => "undefined"
  end.

(** The three routes of the Gemini files share one body; they differ in
    the instruction and in the message of the failure. *)
Definition gemini_route (instruction failure : string) : handler :=
  λ user req now s,
  let text := body req !! "text" in
  if negb (truthy text)
  then mkOutcome (json_ 400 (Error "No text provided")) s []
  else
    let prompt := instruction +:+ nl2 +:+ interpolate text in
    match generateContent prompt with
    | Ok r => mkOutcome (json_ 200 (Keyed "result" r)) s [GenerateContent prompt]
    | Throw _ => mkOutcome (json_ 500 (Error failure)) s [GenerateContent prompt]
    end.

(** [MODELS] *)
Definition MODELS_summarize : string := "facebook/bart-large-cnn".
Definition MODELS_improve : string := "google/pegasus-xsum".
Definition MODELS_ideas : string := "EleutherAI/gpt-neo-1.3B".

(** The routes of the Hugging Face file are registered without the
    middleware. *)
Definition hf_summarize (req : request) (now : Z) (s : collection) : outcome :=
  let text := body req !! "text" in
  if negb (truthy text)
  then mkOutcome (json_ 400 (Error "Text is required")) s []
  else
    match query MODELS_summarize (interpolate text) with
    | Ok r => mkOutcome (json_ 200 (Keyed "summary" r)) s
                        [HFQuery MODELS_summarize (interpolate text)]
    | Throw _ => mkOutcome (json_ 500 (Error "Failed to summarize text")) s
                           [HFQuery MODELS_summarize (interpolate text)]
    end.

Definition hf_improve (req : request) (now : Z) (s : collection) : outcome :=
  let text := body req !! "text" in
  if negb (truthy text)
  then mkOutcome (json_ 400 (Error "Text is required")) s []
  else
    match query MODELS_improve (interpolate text) with
    | Ok r => mkOutcome (json_ 200 (Keyed "improved" r)) s
                        [HFQuery MODELS_improve (interpolate text)]
    | Throw _ => mkOutcome (json_ 500 (Error "Failed to improve text")) s
                           [HFQuery MODELS_improve (interpolate text)]
    end.

Definition hf_ideas (req : request) (now : Z) (s : collection) : outcome :=
  let topic := body req !! "topic" in
  if negb (truthy topic)
  then mkOutcome (json_ 400 (Error "Topic is required")) s []
  else
    let prompt :=
      "Generate 5 creative ideas about: " +:+ interpolate topic +:+ nl2 +:+ "1." in
    match query MODELS_ideas prompt with
    | Ok generated_text =>
        let ideasText := "1." +:+ generated_text in
        let ideasArray :=
          filter (λ item, trim item ≠ "") (split_numbered "" "" ideasText) in
        mkOutcome (json_ 200 (Ideas ideasArray)) s [HFQuery MODELS_ideas prompt]
    | Throw _ => mkOutcome (json_ 500 (Error "Failed to generate ideas")) s
                           [HFQuery MODELS_ideas prompt]
    end.

(** *** The applications *)

(** The note routes, the same in the four files. *)
Inductive note_route :=
| GET_notes
| GET_notes_id
| POST_notes
| PUT_notes_id
| DELETE_notes_id.

Definition note_handler (r : note_route) : handler :=
  match r with
  | GET_notes => get_notes
  | GET_notes_id => get_note
  | POST_notes => post_notes
  | PUT_notes_id => put_note
  | DELETE_notes_id => delete_note
  end.

Definition serve (r : note_route) : request → Z → collection → outcome :=
  guarded (note_handler r).

(** The four files and the three text-assist operations. *)
Inductive server_file :=
| server_js        (* src/server.js, OpenAI *)
| gemini_js        (* part_000, lines 1-216 *)
| huggingface_js   (* part_000, lines 217-502 *)
| gemini_first_js. (* part_000, lines 503-774 *)

Inductive assist :=
| summarize
| improve
| ideas.

(** Whether the file registers its text-assist routes behind
    [authenticateToken]. *)
Definition gated (f : server_file) : bool :=
  match f with
  | huggingface_js => false
  | _ => true
  end.

(** The body field the route requires. *)
Definition required_field (f : server_file) (a : assist) : string :=
  match f, a with
  | huggingface_js, ideas => "topic"
  | _, _ => "text"
  end.

(** POST /api/ai/summarize, /api/ai/improve, /api/ai/ideas as each file
    registers them; server.js has the first only. *)
Definition serve_assist (f : server_file) (a : assist)
    : option (request → Z → collection → outcome) :=
  match f, a with
  | server_js, summarize => Some (guarded post_ai_summarize)
  | server_js, _ => None
  | gemini_js, summarize =>
      Some (guarded (gemini_route "Summarize the following text:"
                                  "Failed to summarize text"))
  | gemini_js, improve =>
      Some (guarded (gemini_route
        "Improve the following text by making it more clear, concise, and professional:"
        "Failed to improve text"))
  | gemini_js, ideas =>
      Some (guarded (gemini_route
        "Based on the following text, suggest some related ideas, questions to explore, or points to consider:"
        "Failed to generate ideas"))
  | huggingface_js, summarize => Some hf_summarize
  | huggingface_js, improve => Some hf_improve
  | huggingface_js, ideas => Some hf_ideas
  | gemini_first_js, summarize =>
      Some (guarded (gemini_route "Summarize the following text:"
                                  "Failed to summarize text"))
  | gemini_first_js, improve =>
      Some (guarded (gemini_route "Improve the following text:"
                                  "Failed to improve text"))
  | gemini_first_js, ideas =>
      Some (guarded (gemini_route "Suggest some ideas based on:"
                                  "Failed to generate ideas"))
  end.

(** [req.user] after the middleware has called [next()] *)
Definition verified (req : request) (user : User) : Prop :=
  (authenticateToken req).1 = Next user.

(** The three routes that address one note. *)
Definition by_id (r : note_route) : Prop :=
  r = GET_notes_id ∨ r = PUT_notes_id ∨ r = DELETE_notes_id.

(** Strictly more recently modified. *)
Definition strictly_newer_first (a b : Note) : Prop :=
  (updatedAt (fields b) < updatedAt (fields a))%Z.

(** ** Properties *)

(** *** The middleware *)

Lemma guarded_verified (h : handler) req user now s :
  verified req user →
  guarded h req now s =
    mkOutcome (reply (h user req now s)) (store (h user req now s))
              ((authenticateToken req).2 ++ calls (h user req now s)).
Proof.
  unfold verified, guarded.
  destruct (authenticateToken req) as [[u|r] cs]; simpl; intros E.
  - by injection E as ->.
  - discriminate.
Qed.

Lemma authenticateToken_unauthorized req :
  token (authorization req) = None ∨ token (authorization req) = Some "" →
  authenticateToken req = (Respond (json_ 401 (Error "Unauthorized")), []).
Proof. unfold authenticateToken. by intros [-> | ->]. Qed.

Lemma authenticateToken_forbidden req tok m :
  token (authorization req) = Some tok → tok ≠ "" →
  verifyIdToken tok CLIENT_ID = Throw m →
  authenticateToken req =
    (Respond (json_ 403 (Error "Invalid token")), [VerifyIdToken tok CLIENT_ID]).
Proof.
  unfold authenticateToken. intros -> Hne ->.
  by rewrite bool_decide_false.
Qed.

(** *** The collection *)

Lemma findOne_owned p u s i f :
  castObjectId p = Some i → s !! i = Some f → userId f = u →
  findOne p u s = Ok (Some (mkNote i f)).
Proof.
  unfold findOne. intros -> -> Hu. by rewrite bool_decide_true.
Qed.

Lemma findOne_foreign p u s i f :
  castObjectId p = Some i → s !! i = Some f → userId f ≠ u →
  findOne p u s = Ok None.
Proof.
  unfold findOne. intros -> -> Hu. by rewrite bool_decide_false.
Qed.

Lemma findOne_absent p u s i :
  castObjectId p = Some i → s !! i = None → findOne p u s = Ok None.
Proof. unfold findOne. by intros -> ->. Qed.

Lemma findOne_malformed p u s :
  castObjectId p = None → findOne p u s = Throw "Cast to ObjectId failed".
Proof. unfold findOne. by intros ->. Qed.

Lemma by_id_no_match r user req now s :
  by_id r → findOne (params_id req) (id user) s = Ok None →
  note_handler r user req now s =
    mkOutcome (json_ 404 (Error "Note not found")) s [].
Proof.
  intros [-> | [-> | ->]] E; simpl;
    unfold get_note, put_note, delete_note, findOneAndUpdate,
      findOneAndDelete; by rewrite E.
Qed.

(** C1. Cross-user isolation.  A note [f] stored under [i] belongs to
    [userId f]; a request that carries the note's id and the verified
    identity of somebody else gets, on each of GET, PUT and DELETE
    /api/notes/:id, the reply 404 "Note not found" and leaves the
    collection as it was; the whole outcome is the one the same request
    has on any collection [s0] that holds no note under that id, up to
    the collection itself, which is unchanged there too. *)
Theorem cross_user_isolation r req user now s i f :
  by_id r →
  s !! i = Some f →
  castObjectId (params_id req) = Some i →
  verified req user →
  id user ≠ userId f →
  reply (serve r req now s) = json_ 404 (Error "Note not found")
  ∧ store (serve r req now s) = s
  ∧ ∀ s0, s0 !! i = None →
      reply (serve r req now s0) = reply (serve r req now s)
      ∧ calls (serve r req now s0) = calls (serve r req now s)
      ∧ store (serve r req now s0) = s0.
Proof.
  intros Hr Hs Hp Hv Hne. unfold serve.
  assert (Hfor : findOne (params_id req) (id user) s = Ok None)
    by (eapply findOne_foreign; eauto).
  rewrite (guarded_verified _ _ _ _ _ Hv), (by_id_no_match _ _ _ _ _ Hr Hfor).
  simpl. do 2 (split; [done|]). intros s0 Hs0.
  by rewrite (guarded_verified _ _ _ _ _ Hv),
    (by_id_no_match r user req now s0 Hr (findOne_absent _ _ _ _ Hp Hs0)).
Qed.

(** C2 (as amended).  Update replaces the fields the request carries and
    keeps the others.  For a note the caller owns, PUT /api/notes/:id
    answers 200 with the updated document and stores it: [title] and
    [content] become what the request body holds under these keys (text,
    or [null]) when the key is present, and stay as they were when the key
    is absent from the body; [updatedAt] is the time of the request;
    [userId] and [createdAt] are kept. *)
Theorem update_merges req user now s i f :
  s !! i = Some f →
  castObjectId (params_id req) = Some i →
  verified req user →
  userId f = id user →
  let f' := {| userId := userId f;
               title := match body req !! "title" with
                        | None => title f
                        | Some JNull => None
                        | Some (JString t) => Some t
                        end;
               content := match body req !! "content" with
                          | None => content f
                          | Some JNull => None
                          | Some (JString c) => Some c
                          end;
               createdAt := createdAt f;
               updatedAt := now |} in
  reply (serve PUT_notes_id req now s) = json_ 200 (OneNote (mkNote i f'))
  ∧ store (serve PUT_notes_id req now s) = <[i := f']> s
  ∧ (body req !! "title" = None → title f' = title f)
  ∧ (body req !! "content" = None → content f' = content f)
  ∧ (∀ t, body req !! "title" = Some (JString t) → title f' = Some t)
  ∧ (∀ c, body req !! "content" = Some (JString c) → content f' = Some c).
Proof.
  intros Hs Hp Hv Hu f'. unfold serve.
  rewrite (guarded_verified _ _ _ _ _ Hv). simpl.
  unfold put_note, findOneAndUpdate.
  rewrite (findOne_owned _ _ _ _ _ Hp Hs Hu). simpl.
  assert (Hf : apply_update {| set_title := body req !! "title";
                               set_content := body req !! "content";
                               set_updatedAt := now |} f = f').
  { subst f'. unfold apply_update. simpl.
    by destruct (body req !! "title") as [[|t]|],
                (body req !! "content") as [[|c]|]. }
  rewrite Hf. do 2 (split; [done|]). subst f'. simpl.
  repeat split; try (by intros ->); by intros ? ->.
Qed.

(** C3. Authentication error taxonomy.  On every note route, a request
    without an Authorization header, or with one whose token (the second
    space-separated segment) is absent or empty, is answered 401
    "Unauthorized" and the identity provider is not called; a request
    whose token the identity provider rejects, for whatever reason, is
    answered 403 "Invalid token" after exactly that one call.  Neither
    touches the collection. *)
Theorem authentication_errors (r : note_route) req now s :
  (authorization req = None →
     serve r req now s = mkOutcome (json_ 401 (Error "Unauthorized")) s [])
  ∧ (token (authorization req) = None ∨ token (authorization req) = Some "" →
     serve r req now s = mkOutcome (json_ 401 (Error "Unauthorized")) s [])
  ∧ (∀ tok message,
       token (authorization req) = Some tok → tok ≠ "" →
       verifyIdToken tok CLIENT_ID = Throw message →
       serve r req now s =
         mkOutcome (json_ 403 (Error "Invalid token")) s
                   [VerifyIdToken tok CLIENT_ID]).
Proof.
  unfold serve, guarded. split; [|split].
  - intros E. rewrite authenticateToken_unauthorized; [done|].
    left. by rewrite E.
  - intros E. by rewrite authenticateToken_unauthorized.
  - intros tok m E Hne Hv.
    by rewrite (authenticateToken_forbidden _ _ _ E Hne Hv).
Qed.

(** *** Listing *)

#[local] Instance newer_first_total : Total newer_first.
Proof. intros a b. unfold newer_first. lia. Qed.

#[local] Instance newer_first_trans : Transitive newer_first.
Proof. intros a b c. unfold newer_first. lia. Qed.

Lemma elem_of_documents s n :
  n ∈ documents s ↔ s !! _id n = Some (fields n).
Proof.
  unfold documents. rewrite list_elem_of_fmap. split.
  - intros [[i f] [-> H]]. by apply elem_of_map_to_list.
  - intros H. exists (_id n, fields n). split; [by destruct n|].
    by apply elem_of_map_to_list.
Qed.

Lemma NoDup_documents s : NoDup (documents s).
Proof.
  unfold documents. apply NoDup_fmap_2; [|apply NoDup_map_to_list].
  intros [i f] [j g] E. by injection E as -> ->.
Qed.

Lemma distinct_strict (l : list Note) :
  StronglySorted newer_first l →
  NoDup ((λ n, updatedAt (fields n)) <$> l) →
  StronglySorted strictly_newer_first l.
Proof.
  induction 1 as [|a l Hl IH Ha]; simpl; intros Hd; [constructor|].
  apply NoDup_cons in Hd as [Hfresh Hd].
  constructor; [by apply IH|].
  apply Forall_forall. intros b Hb.
  rewrite Forall_forall in Ha. specialize (Ha b Hb).
  unfold newer_first in Ha. unfold strictly_newer_first.
  assert (updatedAt (fields a) ≠ updatedAt (fields b)).
  { intros E. apply Hfresh. rewrite E.
    apply list_elem_of_fmap. by exists b. }
  lia.
Qed.

(** C4. List ordering and scoping.  For a caller with a verified
    identity, GET /api/notes answers 200 with a list that holds exactly
    the caller's notes (each note of the collection whose [userId] is the
    caller's identity once, and nothing else), most recently updated
    first; when the [updatedAt] values of these notes are pairwise
    distinct the order is strictly descending; the answer is 200 with
    the empty list when the caller has no note.  The collection is left
    as it was. *)
Theorem list_ordering_scoping req user now s :
  verified req user →
  ∃ l,
    reply (serve GET_notes req now s) = json_ 200 (Notes l)
    ∧ store (serve GET_notes req now s) = s
    ∧ l ≡ₚ filter (λ n, userId (fields n) = id user) (documents s)
    ∧ (∀ n, n ∈ l ↔ s !! _id n = Some (fields n) ∧ userId (fields n) = id user)
    ∧ NoDup l
    ∧ StronglySorted newer_first l
    ∧ (NoDup ((λ n, updatedAt (fields n)) <$> l) →
       StronglySorted strictly_newer_first l)
    ∧ ((∀ i f, s !! i = Some f → userId f ≠ id user) → l = []).
Proof.
  intros Hv. unfold serve. rewrite (guarded_verified _ _ _ _ _ Hv). simpl.
  unfold get_notes, find. simpl.
  set (mine := filter (λ n, userId (fields n) = id user) (documents s)).
  exists (sort_updatedAt_desc mine).
  assert (Hperm : sort_updatedAt_desc mine ≡ₚ mine)
    by apply merge_sort_Permutation.
  assert (Hin : ∀ n, n ∈ sort_updatedAt_desc mine ↔
            s !! _id n = Some (fields n) ∧ userId (fields n) = id user).
  { intros n. rewrite Hperm. unfold mine.
    by rewrite list_elem_of_filter, elem_of_documents, (comm and). }
  assert (Hsorted : StronglySorted newer_first (sort_updatedAt_desc mine))
    by (apply StronglySorted_merge_sort; apply _).
  do 4 (split; [done|]). split; [|split; [done|split]].
  - rewrite Hperm. apply NoDup_filter, NoDup_documents.
  - by apply distinct_strict.
  - intros Hnone. destruct (sort_updatedAt_desc mine) as [|n l]; [done|].
    destruct (proj1 (Hin n)) as [Hn Hu]; [left|].
    by destruct (Hnone _ _ Hn).
Qed.

(** *** Creating *)

Lemma fresh_id_unused (s : collection) : s !! fresh (dom s) = None.
Proof. apply not_elem_of_dom, is_fresh. Qed.

Lemma post_notes_created user req now s :
  id user ≠ "" →
  post_notes user req now s =
    let f := new_Note {| init_userId := id user;
                         init_title := or_else (body req !! "title") "Untitled Note";
                         init_content := or_else (body req !! "content") "" |}
                      now in
    mkOutcome (json_ 201 (OneNote (mkNote (fresh (dom s)) f)))
              (<[fresh (dom s) := f]> s) [].
Proof.
  intros Hne. unfold post_notes, save. simpl.
  by rewrite bool_decide_false.
Qed.

(** C5. Create defaults.  A create request with a valid token (one that
    verifies to a non-empty subject identifier) whose body has neither
    [title] nor [content] is answered 201 with a note whose title is
    "Untitled Note", whose content is the empty string, whose [userId] is
    the verified identity and whose [createdAt] and [updatedAt] are both
    the time of the request; the note is stored under an identifier that
    was not in use, and a GET /api/notes/:id of that identifier by the
    same identity right afterwards is answered 200 with the same
    document. *)
Theorem create_defaults req user now s :
  verified req user →
  id user ≠ "" →
  body req !! "title" = None →
  body req !! "content" = None →
  ∃ i,
    let n := mkNote i {| userId := id user;
                         title := Some "Untitled Note";
                         content := Some "";
                         createdAt := now;
                         updatedAt := now |} in
    s !! i = None
    ∧ reply (serve POST_notes req now s) = json_ 201 (OneNote n)
    ∧ store (serve POST_notes req now s) = <[i := fields n]> s
    ∧ ∀ req' now',
        verified req' user →
        castObjectId (params_id req') = Some i →
        reply (serve GET_notes_id req' now' (store (serve POST_notes req now s)))
          = json_ 200 (OneNote n).
Proof.
  intros Hv Hne Ht Hc. exists (fresh (dom s)). unfold serve.
  rewrite (guarded_verified _ _ _ _ _ Hv). simpl.
  rewrite (post_notes_created _ _ _ _ Hne), Ht, Hc. simpl.
  unfold new_Note. simpl.
  split; [apply fresh_id_unused|]. do 2 (split; [done|]).
  intros req' now' Hv' Hp'.
  rewrite (guarded_verified _ _ _ _ _ Hv'). simpl. unfold get_note.
  erewrite findOne_owned; eauto. by rewrite lookup_insert_eq.
Qed.

(** C6. A [userId] in the body has no influence on Create.  Two create
    requests by the same verified identity whose bodies agree on every
    key but [userId] (present in one, absent from or different in the
    other) get the same reply and leave the same collection; the note
    created is stored with the verified subject identifier as its
    [userId]. *)
Theorem create_ignores_body_userId req1 req2 user now s :
  verified req1 user →
  verified req2 user →
  (∀ k, k ≠ "userId" → body req1 !! k = body req2 !! k) →
  reply (serve POST_notes req1 now s) = reply (serve POST_notes req2 now s)
  ∧ store (serve POST_notes req1 now s) = store (serve POST_notes req2 now s)
  ∧ ∀ n, reply (serve POST_notes req1 now s) = json_ 201 (OneNote n) →
         userId (fields n) = id user
         ∧ store (serve POST_notes req1 now s) !! _id n = Some (fields n).
Proof.
  intros Hv1 Hv2 Hb. unfold serve.
  rewrite (guarded_verified _ _ _ _ _ Hv1), (guarded_verified _ _ _ _ _ Hv2).
  simpl. unfold post_notes.
  rewrite <- (Hb "title"), <- (Hb "content") by done.
  do 2 (split; [done|]).
  unfold save. simpl. case_bool_decide; simpl; intros n E; [discriminate|].
  injection E as <-. simpl. by rewrite lookup_insert_eq.
Qed.

(** *** Updating and deleting *)

Lemma put_note_malformed_id user req now s :
  castObjectId (params_id req) = None →
  put_note user req now s =
    mkOutcome (json_ 500 (Error "Failed to update note")) s [].
Proof.
  intros Hc. unfold put_note, findOneAndUpdate.
  by rewrite (findOne_malformed _ _ _ Hc).
Qed.

(** C7 (as amended).  An update request that matches no note of the
    caller (its id is that of no note, or of a note with another [userId],
    or is no well-formed identifier at all) leaves the whole collection
    unchanged: nothing is created, modified or refreshed.  When the id is
    a well-formed identifier the reply is 404 "Note not found". *)
Theorem update_failure_atomic req user now s :
  verified req user →
  (∀ i f, castObjectId (params_id req) = Some i → s !! i = Some f →
          userId f ≠ id user) →
  store (serve PUT_notes_id req now s) = s
  ∧ (is_Some (castObjectId (params_id req)) →
     reply (serve PUT_notes_id req now s) = json_ 404 (Error "Note not found")).
Proof.
  intros Hv Hno. unfold serve.
  rewrite (guarded_verified _ _ _ _ _ Hv). simpl.
  destruct (castObjectId (params_id req)) as [i|] eqn:Hc.
  - assert (E : findOne (params_id req) (id user) s = Ok None).
    { destruct (s !! i) as [f|] eqn:Hs.
      - eapply findOne_foreign; eauto.
      - eapply findOne_absent; eauto. }
    unfold put_note, findOneAndUpdate. by rewrite E.
  - rewrite (put_note_malformed_id _ _ _ _ Hc). simpl.
    split; [done|]. by intros [? ?].
Qed.

(** C8. Delete, twice.  For a note the caller owns, a first DELETE
    /api/notes/:id is answered 204 with no content and removes the note
    (and nothing else); a second DELETE of the same id by the same caller
    is answered 404 "Note not found" and leaves the collection as the
    first one left it. *)
Theorem delete_twice req user now now' s i f :
  s !! i = Some f →
  castObjectId (params_id req) = Some i →
  verified req user →
  userId f = id user →
  let first := serve DELETE_notes_id req now s in
  let second := serve DELETE_notes_id req now' (store first) in
  reply first = mkResponse 204 Empty
  ∧ store first = delete i s
  ∧ store first !! i = None
  ∧ reply second = json_ 404 (Error "Note not found")
  ∧ store second = store first.
Proof.
  intros Hs Hp Hv Hu. simpl. unfold serve.
  rewrite !(guarded_verified _ _ _ _ _ Hv). simpl.
  unfold delete_note, findOneAndDelete.
  rewrite (findOne_owned _ _ _ _ _ Hp Hs Hu). simpl.
  rewrite (findOne_absent _ _ _ _ Hp (lookup_delete_eq s i)). simpl.
  by rewrite lookup_delete_eq.
Qed.

(** *** Text assist *)

Lemma guarded_required (h : handler) message req now s :
  (∀ user, h user req now s = mkOutcome (json_ 400 (Error message)) s []) →
  store (guarded h req now s) = s
  ∧ (∀ c, c ∈ calls (guarded h req now s) → ∃ tok aud, c = VerifyIdToken tok aud)
  ∧ ((∃ user, verified req user) →
     reply (guarded h req now s) = json_ 400 (Error message))
  ∧ ((∀ user, ¬ verified req user) →
     reply (guarded h req now s) = json_ 401 (Error "Unauthorized")
     ∨ reply (guarded h req now s) = json_ 403 (Error "Invalid token")).
Proof.
  intros Hh. unfold guarded, verified.
  destruct (authenticateToken req) as [[u|r] cs] eqn:E; simpl.
  - rewrite Hh. simpl. rewrite app_nil_r. split; [done|]. split; [|split].
    + unfold authenticateToken in E.
      destruct (token (authorization req)) as [tok|]; [|discriminate].
      case_bool_decide; [discriminate|].
      destruct (verifyIdToken tok CLIENT_ID); [|discriminate].
      injection E as _ <-. intros c ->%list_elem_of_singleton. eauto.
    + done.
    + intros Hnot. by destruct (Hnot u).
  - split; [done|]. unfold authenticateToken in E.
    destruct (token (authorization req)) as [tok|].
    + case_bool_decide.
      * injection E as <- <-. split; [by intros c ?%elem_of_nil|].
        split; [by intros [? ?]|]. by left.
      * destruct (verifyIdToken tok CLIENT_ID); [discriminate|].
        injection E as <- <-. split; [|split; [by intros [? ?]|by right]].
        intros c ->%list_elem_of_singleton. eauto.
    + injection E as <- <-. split; [by intros c ?%elem_of_nil|].
      split; [by intros [? ?]|]. by left.
Qed.

Lemma post_ai_summarize_required user req now s :
  body req !! "text" = None ∨ body req !! "text" = Some JNull
    ∨ body req !! "text" = Some (JString "") →
  post_ai_summarize user req now s =
    mkOutcome (json_ 400 (Error "Text is required")) s [].
Proof. unfold post_ai_summarize. by intros [-> | [-> | ->]]. Qed.

Lemma gemini_route_required instruction failure user req now s :
  body req !! "text" = None ∨ body req !! "text" = Some JNull
    ∨ body req !! "text" = Some (JString "") →
  gemini_route instruction failure user req now s =
    mkOutcome (json_ 400 (Error "No text provided")) s [].
Proof. unfold gemini_route. by intros [-> | [-> | ->]]. Qed.

(** C9 (as amended).  Take any text-assist route a file registers and a
    request whose required field ([text]; [topic] for the ideas route of
    the Hugging Face file) is absent, [null] or the empty string.  No
    call to a generative-text provider is made and the collection is
    untouched, whatever the credentials.  The reply is 400 with an error
    message when the route is registered without the authentication
    middleware, or when the request passes it; behind the middleware a
    request that does not pass gets the 401 or 403 of the middleware
    instead. *)
Theorem assist_validation f a route req now s :
  serve_assist f a = Some route →
  body req !! required_field f a = None
    ∨ body req !! required_field f a = Some JNull
    ∨ body req !! required_field f a = Some (JString "") →
  store (route req now s) = s
  ∧ (∀ c, c ∈ calls (route req now s) → ∃ tok aud, c = VerifyIdToken tok aud)
  ∧ (gated f = false ∨ (∃ user, verified req user) →
     ∃ message, reply (route req now s) = json_ 400 (Error message))
  ∧ (gated f = true → (∀ user, ¬ verified req user) →
     reply (route req now s) = json_ 401 (Error "Unauthorized")
     ∨ reply (route req now s) = json_ 403 (Error "Invalid token")).
Proof.
  intros Hroute Hfield.
  assert (Hopen : ∀ message,
    route req now s = mkOutcome (json_ 400 (Error message)) s [] →
    gated f = false →
    store (route req now s) = s
    ∧ (∀ c, c ∈ calls (route req now s) → ∃ tok aud, c = VerifyIdToken tok aud)
    ∧ (gated f = false ∨ (∃ user, verified req user) →
       ∃ message, reply (route req now s) = json_ 400 (Error message))
    ∧ (gated f = true → (∀ user, ¬ verified req user) →
       reply (route req now s) = json_ 401 (Error "Unauthorized")
       ∨ reply (route req now s) = json_ 403 (Error "Invalid token"))).
  { intros message -> Hg. simpl. split; [done|].
    split; [by intros c ?%elem_of_nil|]. split; [by eauto|].
    rewrite Hg. discriminate. }
  assert (Hclosed : ∀ (h : handler) message,
    route = guarded h →
    (∀ user, h user req now s = mkOutcome (json_ 400 (Error message)) s []) →
    gated f = true →
    store (route req now s) = s
    ∧ (∀ c, c ∈ calls (route req now s) → ∃ tok aud, c = VerifyIdToken tok aud)
    ∧ (gated f = false ∨ (∃ user, verified req user) →
       ∃ message, reply (route req now s) = json_ 400 (Error message))
    ∧ (gated f = true → (∀ user, ¬ verified req user) →
       reply (route req now s) = json_ 401 (Error "Unauthorized")
       ∨ reply (route req now s) = json_ 403 (Error "Invalid token"))).
  { intros h message -> Hh Hg.
    destruct (guarded_required h message req now s Hh) as (Hst & Hc & Hok & Hko).
    split; [done|]. split; [done|]. split.
    - rewrite Hg. intros [?|Hv]; [discriminate|]. eauto.
    - intros _. apply Hko. }
  destruct f, a; simpl in Hroute, Hfield; try discriminate;
    injection Hroute as <-.
  - eapply Hclosed; [done| |done].
    intros user. by apply post_ai_summarize_required.
  - eapply Hclosed; [done| |done].
    intros user. by apply gemini_route_required.
  - eapply Hclosed; [done| |done].
    intros user. by apply gemini_route_required.
  - eapply Hclosed; [done| |done].
    intros user. by apply gemini_route_required.
  - eapply Hopen; [|done]. unfold hf_summarize.
    by destruct Hfield as [-> | [-> | ->]].
  - eapply Hopen; [|done]. unfold hf_improve.
    by destruct Hfield as [-> | [-> | ->]].
  - eapply Hopen; [|done]. unfold hf_ideas.
    by destruct Hfield as [-> | [-> | ->]].
  - eapply Hclosed; [done| |done].
    intros user. by apply gemini_route_required.
  - eapply Hclosed; [done| |done].
    intros user. by apply gemini_route_required.
  - eapply Hclosed; [done| |done].
    intros user. by apply gemini_route_required.
Qed.

(** *** Token extraction *)

Lemma split_head s : split " " s !! 0%nat = Some (up_to_space s).
Proof.
  induction s as [|c s IH]; simpl; [done|].
  case_decide; [done|].
  destruct (split " " s) as [|w ws]; simpl in *; [done|].
  by injection IH as ->.
Qed.

Lemma split_second s : split " " s !! 1%nat = second_segment s.
Proof.
  unfold second_segment. induction s as [|c s IH]; simpl; [done|].
  case_decide; simpl.
  - apply split_head.
  - pose proof (split_head s) as Hh.
    destruct (split " " s) as [|w ws]; simpl in *; [done|]. apply IH.
Qed.

Lemma no_space_after_first s :
  contains_space s = false → after_first_space s = None.
Proof.
  induction s as [|c s IH]; simpl; [done|].
  intros [Hc Hs]%orb_false_iff. apply bool_decide_eq_false in Hc.
  case_decide; [done|]. by apply IH.
Qed.

Lemma no_space_up_to s : contains_space s = false → up_to_space s = s.
Proof.
  induction s as [|c s IH]; simpl; [done|].
  intros [Hc Hs]%orb_false_iff. apply bool_decide_eq_false in Hc.
  case_decide; [done|]. by rewrite IH.
Qed.

(** C10 (as amended).  The middleware takes the token to be the second
    space-separated segment of the Authorization header value: the text
    between the first space and the second one (or the end), which is the
    whole substring after the first space when that substring has no
    further space.  So a header value without a space (a bare token, or
    the word Bearer alone) has no second segment, and a request whose
    header has no second segment, or an empty one, is answered 401
    "Unauthorized" on every route behind the middleware, without a call
    to the identity provider and without touching the collection. *)
Theorem token_extraction req h :
  authorization req = Some h →
  (h ≠ "" → token (authorization req) = second_segment h)
  ∧ (∀ rest, after_first_space h = Some rest → contains_space rest = false →
       token (authorization req) = Some rest)
  ∧ (contains_space h = false → second_segment h = None)
  ∧ (second_segment h = None ∨ second_segment h = Some "" →
     ∀ (route : handler) now s,
       guarded route req now s =
         mkOutcome (json_ 401 (Error "Unauthorized")) s []).
Proof.
  intros E. rewrite E. unfold token.
  assert (Hseg : h ≠ "" →
    (if bool_decide (h = "") then Some h else split " " h !! 1%nat)
      = second_segment h).
  { intros Hne. rewrite bool_decide_false by done. apply split_second. }
  split; [done|]. split; [|split].
  - intros rest Hrest Hno. rewrite Hseg by (by intros ->).
    unfold second_segment. rewrite Hrest. simpl. by rewrite no_space_up_to.
  - intros Hno. unfold second_segment. by rewrite no_space_after_first.
  - intros Hnone route now s. unfold guarded.
    rewrite authenticateToken_unauthorized; [done|].
    rewrite E. simpl. case_bool_decide as Hh; [right; by subst|].
    by rewrite split_second.
Qed.

(** *** What a note request can do to the collection *)

Lemma findOne_found p u s n :
  findOne p u s = Ok (Some n) →
  castObjectId p = Some (_id n)
  ∧ s !! _id n = Some (fields n) ∧ userId (fields n) = u.
Proof.
  unfold findOne. destruct (castObjectId p) as [i|]; [|discriminate].
  destruct (s !! i) as [f|] eqn:Hs; [|discriminate].
  case_bool_decide; [|discriminate]. intros E. by injection E as <-.
Qed.

(** The only changes a note handler makes: none, one document inserted
    under an unused identifier, one document of the caller rewritten in
    place, one document of the caller removed. *)
Lemma note_handler_effect r user req now s :
  let s' := store (note_handler r user req now s) in
  (s' = s ∧ (r = POST_notes ∨ r = PUT_notes_id ∨ r = DELETE_notes_id →
             400 ≤ status (reply (note_handler r user req now s)))%Z)
  ∨ (r = POST_notes ∧ id user ≠ "" ∧
     ∃ f, userId f = id user ∧ createdAt f = now ∧ updatedAt f = now
          ∧ s' = <[fresh (dom s) := f]> s
          ∧ reply (note_handler r user req now s)
              = json_ 201 (OneNote (mkNote (fresh (dom s)) f)))
  ∨ (r = PUT_notes_id ∧
     ∃ i f, castObjectId (params_id req) = Some i ∧ s !! i = Some f
            ∧ userId f = id user
            ∧ s' = <[i := apply_update
                             {| set_title := body req !! "title";
                                set_content := body req !! "content";
                                set_updatedAt := now |} f]> s)
  ∨ (r = DELETE_notes_id ∧
     ∃ i f, castObjectId (params_id req) = Some i ∧ s !! i = Some f
            ∧ userId f = id user ∧ s' = delete i s).
Proof.
  destruct r; simpl.
  - left. split; [done|]. by intros [?|[?|?]].
  - left. unfold get_note. split; [|by intros [?|[?|?]]].
    by destruct (findOne _ _ _) as [[?|]|?].
  - unfold post_notes, save. simpl. case_bool_decide as Hid; simpl.
    + left. by split.
    + right. left. do 2 (split; [done|]). eexists. by repeat split.
  - unfold put_note, findOneAndUpdate.
    destruct (findOne _ _ _) as [[n|]|?] eqn:E; simpl.
    + right. right. left. split; [done|].
      destruct (findOne_found _ _ _ _ E) as (Hc & Hs & Hu).
      by exists (_id n), (fields n).
    + left. by split.
    + left. by split.
  - unfold delete_note, findOneAndDelete.
    destruct (findOne _ _ _) as [[n|]|?] eqn:E; simpl.
    + right. right. right. split; [done|].
      destruct (findOne_found _ _ _ _ E) as (Hc & Hs & Hu).
      by exists (_id n), (fields n).
    + left. by split.
    + left. by split.
Qed.

(** A request the middleware turns away changes nothing; one it lets
    through changes what the handler changes. *)
Lemma serve_store r req now s :
  store (serve r req now s) = s
  ∨ ∃ user, verified req user
            ∧ store (serve r req now s) = store (note_handler r user req now s)
            ∧ reply (serve r req now s) = reply (note_handler r user req now s).
Proof.
  unfold serve, guarded, verified.
  destruct (authenticateToken req) as [[user|resp] cs]; simpl; [|by left].
  right. by exists user.
Qed.

(** X1. Owner, creation time and identifier of a note are fixed.  Whatever
    the route, the request and its credentials, a note that is in the
    collection before and after the request has kept its [userId] and its
    [createdAt] (it is stored under the same [_id] by construction). *)
Theorem owner_and_creation_time_are_kept r req now s i f f' :
  s !! i = Some f →
  store (serve r req now s) !! i = Some f' →
  userId f' = userId f ∧ createdAt f' = createdAt f.
Proof.
  intros Hs. destruct (serve_store r req now s) as [-> | (user & _ & -> & _)].
  { rewrite Hs. by intros [= <-]. }
  destruct (note_handler_effect r user req now s)
    as [[-> _] | [(_ & _ & g & _ & _ & _ & -> & _) |
       [(_ & j & g & _ & Hj & _ & ->) | (_ & j & g & _ & Hj & _ & ->)]]].
  - rewrite Hs. by intros [= <-].
  - rewrite lookup_insert_ne; [rewrite Hs; by intros [= <-]|].
    intros <-. by rewrite fresh_id_unused in Hs.
  - destruct (decide (j = i)) as [->|Hne].
    + rewrite lookup_insert_eq. intros [= <-]. simplify_eq. done.
    + rewrite lookup_insert_ne by done. rewrite Hs. by intros [= <-].
  - destruct (decide (j = i)) as [->|Hne].
    + by rewrite lookup_delete_eq.
    + rewrite lookup_delete_ne by done. rewrite Hs. by intros [= <-].
Qed.

(** X2. Nobody writes to the notes of somebody else.  Whatever the route
    and the request, a stored note whose [userId] is not the identity the
    middleware verified (in particular when it verified none) is in the
    collection afterwards, unchanged. *)
Theorem foreign_notes_untouched r req now s i f :
  s !! i = Some f →
  (∀ user, verified req user → id user ≠ userId f) →
  store (serve r req now s) !! i = Some f.
Proof.
  intros Hs Hforeign.
  destruct (serve_store r req now s) as [-> | (user & Hv & -> & _)]; [done|].
  specialize (Hforeign user Hv).
  destruct (note_handler_effect r user req now s)
    as [[-> _] | [(_ & _ & g & _ & _ & _ & -> & _) |
       [(_ & j & g & _ & Hj & Hu & ->) | (_ & j & g & _ & Hj & Hu & ->)]]].
  - done.
  - rewrite lookup_insert_ne; [done|].
    intros <-. by rewrite fresh_id_unused in Hs.
  - rewrite lookup_insert_ne; [done|]. intros ->.
    assert (g = f) as -> by congruence. congruence.
  - rewrite lookup_delete_ne; [done|]. intros ->.
    assert (g = f) as -> by congruence. congruence.
Qed.

(** X3. The routes that address one note touch that note only.  On GET,
    PUT and DELETE /api/notes/:id, every document stored under an
    identifier other than the one the request's id denotes is the same
    before and after (all documents, when the id denotes none). *)
Theorem by_id_touches_one r req now s j :
  by_id r →
  castObjectId (params_id req) ≠ Some j →
  store (serve r req now s) !! j = s !! j.
Proof.
  intros Hr Hj.
  destruct (serve_store r req now s) as [-> | (user & _ & -> & _)]; [done|].
  destruct (note_handler_effect r user req now s)
    as [[-> _] | [(-> & _) |
       [(_ & i & g & Hi & _ & _ & ->) | (_ & i & g & Hi & _ & _ & ->)]]].
  - done.
  - by destruct Hr as [?|[?|?]].
  - rewrite lookup_insert_ne; [done|]. intros ->. by rewrite Hi in Hj.
  - rewrite lookup_delete_ne; [done|]. intros ->. by rewrite Hi in Hj.
Qed.

(** X4. Reading does not write.  GET /api/notes and GET /api/notes/:id
    leave the collection as it was, for every request. *)
Theorem reads_do_not_write req now s :
  store (serve GET_notes req now s) = s
  ∧ store (serve GET_notes_id req now s) = s.
Proof.
  split.
  - destruct (serve_store GET_notes req now s) as [-> | (user & _ & -> & _)];
      [done|].
    by destruct (note_handler_effect GET_notes user req now s)
      as [[-> _] | [(? & _) | [(? & _) | (? & _)]]].
  - destruct (serve_store GET_notes_id req now s) as [-> | (user & _ & -> & _)];
      [done|].
    by destruct (note_handler_effect GET_notes_id user req now s)
      as [[-> _] | [(? & _) | [(? & _) | (? & _)]]].
Qed.

(** X5. An error reply means nothing was written.  On every note route,
    a request answered with a status of 400 or more (401, 403, 404, 500)
    leaves the collection exactly as it was. *)
Theorem errors_do_not_write r req now s :
  (400 ≤ status (reply (serve r req now s)))%Z →
  store (serve r req now s) = s.
Proof.
  destruct (serve_store r req now s) as [-> | (user & _ & -> & ->)]; [done|].
  intros Hst.
  destruct (note_handler_effect r user req now s)
    as [[-> _] | [(-> & _ & g & _ & _ & _ & _ & E) |
       [(-> & i & g & Hi & Hs & Hu & E) | (-> & i & g & Hi & Hs & Hu & E)]]].
  - done.
  - rewrite E in Hst. simpl in Hst. lia.
  - simpl in Hst. unfold put_note, findOneAndUpdate in Hst.
    rewrite (findOne_owned _ _ _ _ _ Hi Hs Hu) in Hst. simpl in Hst. lia.
  - simpl in Hst. unfold delete_note, findOneAndDelete in Hst.
    rewrite (findOne_owned _ _ _ _ _ Hi Hs Hu) in Hst. simpl in Hst. lia.
Qed.

(** X6. What leaves the process on a note request.  Every note route
    makes at most one outside call, to the identity provider, with a
    non-empty token and the configured client id as audience; it never
    calls a text provider; and it makes no call at all exactly when the
    request carries no token. *)
Theorem note_routes_call_the_verifier_only r req now s :
  (calls (serve r req now s) = []
   ∧ (token (authorization req) = None ∨ token (authorization req) = Some ""))
  ∨ ∃ tok, token (authorization req) = Some tok ∧ tok ≠ ""
           ∧ calls (serve r req now s) = [VerifyIdToken tok CLIENT_ID].
Proof.
  assert (Hh : ∀ user, calls (note_handler r user req now s) = []).
  { intros user. destruct r; simpl.
    - done.
    - unfold get_note. by destruct (findOne _ _ _) as [[?|]|?].
    - unfold post_notes. by destruct (save _ _) as [[?|?] ?].
    - unfold put_note. by destruct (findOneAndUpdate _ _ _ _ _) as [[[?|]|?] ?].
    - unfold delete_note. by destruct (findOneAndDelete _ _ _) as [[[?|]|?] ?]. }
  unfold serve, guarded, authenticateToken.
  destruct (token (authorization req)) as [tok|]; simpl; [|left; by split; [|left]].
  case_bool_decide as Htok; simpl; [left; split; [done|right; by subst]|].
  right. exists tok. do 2 (split; [done|]).
  destruct (verifyIdToken tok CLIENT_ID); simpl; [|done].
  by rewrite Hh.
Qed.

Lemma serve_cases r req now s :
  (store (serve r req now s) = s
   ∧ (reply (serve r req now s) = json_ 401 (Error "Unauthorized")
      ∨ reply (serve r req now s) = json_ 403 (Error "Invalid token"))
   ∧ ∀ user, ¬ verified req user)
  ∨ ∃ user, verified req user
            ∧ store (serve r req now s) = store (note_handler r user req now s)
            ∧ reply (serve r req now s) = reply (note_handler r user req now s).
Proof.
  unfold serve, guarded, verified.
  destruct (authenticateToken req) as [[user|resp] cs] eqn:E; simpl.
  { right. by exists user. }
  left. split; [done|]. split; [|by intros user].
  unfold authenticateToken in E.
  destruct (token (authorization req)) as [tok|];
    [|injection E as <- _; by left].
  case_bool_decide; [injection E as <- _; by left|].
  destruct (verifyIdToken tok CLIENT_ID); [discriminate|].
  injection E as <- _. by right.
Qed.

(** *** Creating, in general *)

(** X7. Create adds one document and touches no other.  For a caller
    with a non-empty verified identity and a body whose [title] and
    [content] are each text, [null] or absent, POST /api/notes answers
    201 with the document it stored; the document is stored under
    an identifier that was not in use, carries the caller's identity as
    [userId] and the time of the request as both dates; the collection has
    one document more and every document it had before is still there
    unchanged. *)
Theorem create_adds_one req user now s :
  verified req user →
  id user ≠ "" →
  ∃ i f,
    s !! i = None
    ∧ reply (serve POST_notes req now s) = json_ 201 (OneNote (mkNote i f))
    ∧ store (serve POST_notes req now s) = <[i := f]> s
    ∧ userId f = id user ∧ createdAt f = now ∧ updatedAt f = now
    ∧ size (store (serve POST_notes req now s)) = S (size s)
    ∧ ∀ j g, s !! j = Some g → store (serve POST_notes req now s) !! j = Some g.
Proof.
  intros Hv Hne. unfold serve. rewrite (guarded_verified _ _ _ _ _ Hv). simpl.
  rewrite (post_notes_created _ _ _ _ Hne). simpl.
  eexists _, _. split; [apply fresh_id_unused|]. do 5 (split; [done|]). split.
  - apply map_size_insert_None, fresh_id_unused.
  - intros j g Hj. rewrite lookup_insert_ne; [done|].
    intros <-. by rewrite fresh_id_unused in Hj.
Qed.

(** X8. What Create stores as title and content.  For a body whose
    [title] and [content] are each text, [null] or absent: whenever POST
    /api/notes answers 201, the title of the note is the body's [title]
    if that is non-empty text, and "Untitled Note" if it is absent, [null]
    or the empty string; its content is the body's [content] if that is
    text, and the empty string if it is absent or [null].  So the note
    has neither an empty or [null] title nor a [null] content. *)
Theorem created_title_and_content req now s n :
  reply (serve POST_notes req now s) = json_ 201 (OneNote n) →
  title (fields n)
    = Some (match body req !! "title" with
            | Some (JString t) => if bool_decide (t = "") then "Untitled Note" else t
            | Some JNull | None => "Untitled Note"
            end)
  ∧ content (fields n)
    = Some (match body req !! "content" with
            | Some (JString c) => c
            | Some JNull | None => ""
            end)
  ∧ title (fields n) ≠ Some "" ∧ title (fields n) ≠ None
  ∧ content (fields n) ≠ None.
Proof.
  destruct (serve_cases POST_notes req now s)
    as [(_ & [-> | ->] & _) | (user & _ & _ & ->)]; [discriminate..|].
  simpl. unfold post_notes, save. simpl.
  case_bool_decide; simpl; [discriminate|]. intros [= <-]. simpl.
  unfold or_else, truthy.
  destruct (body req !! "title") as [[|t]|];
    destruct (body req !! "content") as [[|c]|]; simpl;
    repeat case_bool_decide; simpl; subst; repeat split; try done; congruence.
Qed.

(** X9. Create needs an owner.  When the verified subject identifier is
    the empty string the [required] validation of [userId] fails on save:
    POST /api/notes answers 500 "Failed to create note" and nothing is
    stored. *)
Theorem create_without_subject req user now s :
  verified req user →
  id user = "" →
  reply (serve POST_notes req now s) = json_ 500 (Error "Failed to create note")
  ∧ store (serve POST_notes req now s) = s.
Proof.
  intros Hv He. unfold serve. rewrite (guarded_verified _ _ _ _ _ Hv). simpl.
  unfold post_notes, save. simpl. by rewrite bool_decide_true.
Qed.

(** *** Reading one note *)

(** X10. GET /api/notes/:id returns a note exactly when it should.  The
    reply is 200 with a document precisely when the middleware verified
    an identity, the request's id denotes the document's [_id], the
    document is stored as returned, and its [userId] is that identity: the
    route never shows a note of somebody else, a stale copy, or a note
    under another id. *)
Theorem get_note_sound_and_complete req now s n :
  reply (serve GET_notes_id req now s) = json_ 200 (OneNote n)
  ↔ ∃ user, verified req user
            ∧ castObjectId (params_id req) = Some (_id n)
            ∧ s !! _id n = Some (fields n)
            ∧ userId (fields n) = id user.
Proof.
  split.
  - destruct (serve_cases GET_notes_id req now s)
      as [(_ & [-> | ->] & _) | (user & Hv & _ & ->)]; [discriminate..|].
    simpl. unfold get_note.
    destruct (findOne _ _ _) as [[m|]|?] eqn:E; simpl; [|discriminate..].
    intros [= <-]. exists user. split; [done|].
    by apply findOne_found.
  - intros (user & Hv & Hc & Hs & Hu). unfold serve.
    rewrite (guarded_verified _ _ _ _ _ Hv). simpl. unfold get_note.
    rewrite (findOne_owned _ _ _ _ _ Hc Hs Hu). by destruct n.
Qed.

(** *** How the note routes compose *)

Lemma put_note_owned user req now s i f :
  castObjectId (params_id req) = Some i → s !! i = Some f →
  userId f = id user →
  put_note user req now s =
    let f' := apply_update {| set_title := body req !! "title";
                              set_content := body req !! "content";
                              set_updatedAt := now |} f in
    mkOutcome (json_ 200 (OneNote (mkNote i f'))) (<[i := f']> s) [].
Proof.
  intros Hc Hs Hu. unfold put_note, findOneAndUpdate.
  by rewrite (findOne_owned _ _ _ _ _ Hc Hs Hu).
Qed.

Lemma delete_note_owned user req now s i f :
  castObjectId (params_id req) = Some i → s !! i = Some f →
  userId f = id user →
  delete_note user req now s = mkOutcome (mkResponse 204 Empty) (delete i s) [].
Proof.
  intros Hc Hs Hu. unfold delete_note, findOneAndDelete.
  by rewrite (findOne_owned _ _ _ _ _ Hc Hs Hu).
Qed.

Lemma elem_of_listing u s n :
  n ∈ sort_updatedAt_desc (filter (λ n, userId (fields n) = u) (documents s))
  ↔ s !! _id n = Some (fields n) ∧ userId (fields n) = u.
Proof.
  unfold sort_updatedAt_desc. rewrite merge_sort_Permutation.
  by rewrite list_elem_of_filter, elem_of_documents, (comm and).
Qed.

Lemma serve_get_notes req user now s :
  verified req user →
  reply (serve GET_notes req now s)
    = json_ 200 (Notes (sort_updatedAt_desc
        (filter (λ n, userId (fields n) = id user) (documents s)))).
Proof.
  intros Hv. unfold serve. by rewrite (guarded_verified _ _ _ _ _ Hv).
Qed.

(** X11. Read your write.  After a successful PUT /api/notes/:id on a
    note the caller owns, a GET of the same id by the same identity, at
    any later time, returns exactly the document the PUT returned. *)
Theorem update_then_read req req' user now now' s i f :
  s !! i = Some f →
  userId f = id user →
  verified req user →
  castObjectId (params_id req) = Some i →
  verified req' user →
  castObjectId (params_id req') = Some i →
  reply (serve GET_notes_id req' now' (store (serve PUT_notes_id req now s)))
    = reply (serve PUT_notes_id req now s).
Proof.
  intros Hs Hu Hv Hc Hv' Hc'. unfold serve.
  rewrite (guarded_verified _ _ _ _ _ Hv'), (guarded_verified _ _ _ _ _ Hv).
  simpl. rewrite (put_note_owned _ _ _ _ _ _ Hc Hs Hu). simpl.
  unfold get_note. erewrite findOne_owned; eauto.
  by rewrite lookup_insert_eq.
Qed.

(** X12. Successive updates merge.  Two successive PUTs of the same note
    by its owner give the reply, and leave the collection, that one PUT
    at the time of the second would with the union of the two bodies, the
    second body taking precedence key by key: for each of [title] and
    [content] the later value wins, and a value only the first request
    carries survives the second. *)
Theorem updates_merge req1 req2 req user now1 now2 s i f :
  s !! i = Some f →
  userId f = id user →
  verified req1 user →
  castObjectId (params_id req1) = Some i →
  verified req2 user →
  castObjectId (params_id req2) = Some i →
  verified req user →
  castObjectId (params_id req) = Some i →
  body req = body req2 ∪ body req1 →
  reply (serve PUT_notes_id req2 now2 (store (serve PUT_notes_id req1 now1 s)))
    = reply (serve PUT_notes_id req now2 s)
  ∧ store (serve PUT_notes_id req2 now2 (store (serve PUT_notes_id req1 now1 s)))
    = store (serve PUT_notes_id req now2 s).
Proof.
  intros Hs Hu Hv1 Hc1 Hv2 Hc2 Hv Hc Hb. unfold serve.
  rewrite !(guarded_verified _ _ _ _ _ Hv2), (guarded_verified _ _ _ _ _ Hv1),
    (guarded_verified _ _ _ _ _ Hv).
  simpl. rewrite (put_note_owned _ _ _ _ _ _ Hc1 Hs Hu). simpl.
  rewrite (put_note_owned _ _ _ _ _ _ Hc Hs Hu). simpl.
  erewrite put_note_owned; [|done|apply lookup_insert_eq|done]. simpl.
  rewrite insert_insert_eq.
  assert (Hf : apply_update {| set_title := body req2 !! "title";
                               set_content := body req2 !! "content";
                               set_updatedAt := now2 |}
                 (apply_update {| set_title := body req1 !! "title";
                                  set_content := body req1 !! "content";
                                  set_updatedAt := now1 |} f)
               = apply_update {| set_title := body req !! "title";
                                 set_content := body req !! "content";
                                 set_updatedAt := now2 |} f).
  { unfold apply_update. simpl. rewrite Hb, !lookup_union.
    by destruct (body req2 !! "title") as [[|?]|],
                (body req2 !! "content") as [[|?]|],
                (body req1 !! "title") as [[|?]|],
                (body req1 !! "content") as [[|?]|]. }
  by rewrite Hf.
Qed.

(** X13. An updated note comes first.  When the time of a successful
    PUT is later than the [updatedAt] of every other note of the caller,
    the next GET /api/notes by the caller lists the updated document
    first. *)
Theorem updated_note_is_listed_first req req' user now now' s i f :
  s !! i = Some f →
  userId f = id user →
  verified req user →
  castObjectId (params_id req) = Some i →
  (∀ j g, j ≠ i → s !! j = Some g → userId g = id user → (updatedAt g < now)%Z) →
  verified req' user →
  ∃ n rest,
    reply (serve PUT_notes_id req now s) = json_ 200 (OneNote n)
    ∧ reply (serve GET_notes req' now' (store (serve PUT_notes_id req now s)))
        = json_ 200 (Notes (n :: rest)).
Proof.
  intros Hs Hu Hv Hc Hlater Hv'.
  rewrite (serve_get_notes _ _ _ _ Hv'). unfold serve.
  rewrite (guarded_verified _ _ _ _ _ Hv). simpl.
  rewrite (put_note_owned _ _ _ _ _ _ Hc Hs Hu). simpl.
  set (f' := apply_update _ f). set (s' := <[i := f']> s).
  remember (sort_updatedAt_desc
              (filter (λ n, userId (fields n) = id user) (documents s')))
    as l eqn:El.
  assert (Hin : mkNote i f' ∈ l).
  { rewrite El. apply elem_of_listing. simpl. subst s'.
    by rewrite lookup_insert_eq. }
  assert (Hsorted : StronglySorted newer_first l)
    by (rewrite El; apply StronglySorted_merge_sort; apply _).
  assert (Hmine : ∀ m, m ∈ l →
            s' !! _id m = Some (fields m) ∧ userId (fields m) = id user).
  { intros m. rewrite El. apply elem_of_listing. }
  clear El.
  destruct l as [|h rest]; [by apply elem_of_nil in Hin|].
  exists (mkNote i f'), rest. split; [done|]. do 2 f_equal.
  apply elem_of_cons in Hin as [Hin | Hin]; [by rewrite Hin|].
  apply StronglySorted_inv in Hsorted as [_ Hall].
  rewrite Forall_forall in Hall. specialize (Hall _ Hin).
  unfold newer_first in Hall. simpl in Hall.
  destruct (Hmine h) as [Hg Hgu]; [left|].
  destruct (decide (_id h = i)) as [Hi | Hi].
  - destruct h as [j g]. simpl in *. subst j s'.
    rewrite lookup_insert_eq in Hg. by injection Hg as <-.
  - exfalso. subst s'. rewrite lookup_insert_ne in Hg by done.
    specialize (Hlater _ _ Hi Hg Hgu). lia.
Qed.

(** X14. A created note is listed, for its owner only.  After a
    successful POST /api/notes, GET /api/notes by any verified caller
    lists the notes it would have listed before, and in addition, when
    the caller is the creator, the note just created. *)
Theorem create_then_list req req' user user' now now' s :
  verified req user →
  id user ≠ "" →
  verified req' user' →
  ∃ created before after,
    reply (serve POST_notes req now s) = json_ 201 (OneNote created)
    ∧ reply (serve GET_notes req' now' s) = json_ 200 (Notes before)
    ∧ reply (serve GET_notes req' now' (store (serve POST_notes req now s)))
        = json_ 200 (Notes after)
    ∧ ∀ n, n ∈ after ↔ n ∈ before ∨ (n = created ∧ id user' = id user).
Proof.
  intros Hv Hne Hv'.
  rewrite !(serve_get_notes _ _ _ _ Hv'). unfold serve.
  rewrite (guarded_verified _ _ _ _ _ Hv). simpl.
  rewrite (post_notes_created _ _ _ _ Hne). simpl.
  set (f := new_Note _ now). set (i := fresh (dom s)).
  eexists _, _, _. do 3 (split; [done|]).
  intros n. rewrite !elem_of_listing.
  assert (Hfree : s !! i = None) by apply fresh_id_unused.
  destruct (decide (_id n = i)) as [Hi | Hi].
  - rewrite Hi, lookup_insert_eq, Hfree. split.
    + intros [[= Hf] Hu]. right. split; [|by rewrite <- Hu, <- Hf].
      destruct n as [j g]. simpl in *. by subst.
    + intros [[? _] | [-> Hu]]; [done|]. simpl. by split.
  - rewrite lookup_insert_ne by done. split; [by left|].
    intros [? | [-> _]]; [done|]. by destruct Hi.
Qed.

(** X15. A deleted note is gone, and only that one.  After a successful
    DELETE of a note the caller owns, GET /api/notes by any verified
    caller lists the notes it would have listed before, except the
    deleted one, and GET by its id answers 404 for everybody. *)
Theorem delete_then_list req req' user user' now now' s i f :
  s !! i = Some f →
  userId f = id user →
  verified req user →
  castObjectId (params_id req) = Some i →
  verified req' user' →
  ∃ before after,
    reply (serve GET_notes req' now' s) = json_ 200 (Notes before)
    ∧ reply (serve GET_notes req' now' (store (serve DELETE_notes_id req now s)))
        = json_ 200 (Notes after)
    ∧ (∀ n, n ∈ after ↔ n ∈ before ∧ _id n ≠ i)
    ∧ (castObjectId (params_id req') = Some i →
       reply (serve GET_notes_id req' now'
                (store (serve DELETE_notes_id req now s)))
         = json_ 404 (Error "Note not found")).
Proof.
  intros Hs Hu Hv Hc Hv'.
  rewrite !(serve_get_notes _ _ _ _ Hv'). unfold serve.
  rewrite (guarded_verified _ _ _ _ _ Hv). simpl.
  rewrite (delete_note_owned _ _ _ _ _ _ Hc Hs Hu). simpl.
  eexists _, _. do 2 (split; [done|]). split.
  - intros n. rewrite !elem_of_listing.
    destruct (decide (_id n = i)) as [Hi | Hi].
    + rewrite Hi, lookup_delete_eq. split; [by intros [? _]|by intros [_ ?]].
    + rewrite lookup_delete_ne by done. by split; [|intros [? _]].
  - intros Hc'. rewrite (guarded_verified _ _ _ _ _ Hv'). simpl.
    unfold get_note.
    by rewrite (findOne_absent _ _ _ _ Hc' (lookup_delete_eq s i)).
Qed.

(** X16. Create, then delete: back where we were.  Deleting the note a
    create request has just stored restores the collection the create
    request found. *)
Theorem create_then_delete req req' user now now' s n :
  verified req user →
  reply (serve POST_notes req now s) = json_ 201 (OneNote n) →
  verified req' user →
  castObjectId (params_id req') = Some (_id n) →
  reply (serve DELETE_notes_id req' now' (store (serve POST_notes req now s)))
    = mkResponse 204 Empty
  ∧ store (serve DELETE_notes_id req' now' (store (serve POST_notes req now s)))
    = s.
Proof.
  intros Hv Hreply Hv' Hc'. revert Hreply. unfold serve.
  rewrite (guarded_verified _ _ _ _ _ Hv'), (guarded_verified _ _ _ _ _ Hv).
  simpl. unfold post_notes, save. simpl.
  case_bool_decide as Hid; simpl; [discriminate|]. intros [= <-].
  simpl in Hc'.
  erewrite delete_note_owned; [|done|apply lookup_insert_eq|done]. simpl.
  split; [done|]. apply delete_insert_id, fresh_id_unused.
Qed.

(** *** The middleware, further *)

Lemma after_first_space_app scheme rest :
  contains_space scheme = false →
  after_first_space (scheme +:+ String " " rest) = Some rest.
Proof.
  induction scheme as [|c w IH]; simpl.
  - done.
  - intros [Hc Hw]%orb_false_iff. apply bool_decide_eq_false in Hc.
    case_decide; [done|]. by apply IH.
Qed.

Lemma append_not_empty w rest : w +:+ String " " rest ≠ "".
Proof. by destruct w. Qed.

Lemma note_handler_reads r user req req' now s :
  params_id req' = params_id req →
  body req' = body req →
  note_handler r user req' now s = note_handler r user req now s.
Proof.
  intros Hp Hb.
  destruct r; simpl; unfold get_note, post_notes, put_note, delete_note;
    by rewrite ?Hp, ?Hb.
Qed.

(** X17. The scheme word is not looked at.  The middleware reads the
    second space-separated word of the Authorization header and ignores
    the first: with any word (or none) in the place of Bearer, followed
    by one space and the same token, the middleware decides the same, and
    the request has the same outcome on every note route. *)
Theorem scheme_is_not_checked scheme tok req req' :
  contains_space scheme = false →
  contains_space tok = false →
  authorization req = Some ("Bearer " +:+ tok) →
  authorization req' = Some (scheme +:+ " " +:+ tok) →
  params_id req' = params_id req →
  body req' = body req →
  authenticateToken req' = authenticateToken req
  ∧ ∀ r now s, serve r req' now s = serve r req now s.
Proof.
  intros Hscheme Htok Ha Ha' Hp Hb.
  assert (Hword : ∀ w, contains_space w = false →
            token (Some (w +:+ String " " tok)) = Some tok).
  { intros w Hw. unfold token.
    rewrite bool_decide_false; [|apply append_not_empty].
    rewrite split_second. unfold second_segment.
    rewrite (after_first_space_app _ _ Hw). simpl.
    by rewrite no_space_up_to. }
  assert (Ht : token (authorization req) = Some tok).
  { rewrite Ha. by apply (Hword "Bearer"). }
  assert (Ht' : token (authorization req') = Some tok).
  { rewrite Ha'. by apply (Hword scheme). }
  assert (Hauth : authenticateToken req' = authenticateToken req).
  { unfold authenticateToken. by rewrite Ht, Ht'. }
  split; [done|]. intros r now s. unfold serve, guarded. rewrite Hauth.
  destruct (authenticateToken req) as [[user|resp] cs]; [|done].
  by rewrite (note_handler_reads _ _ _ _ _ _ Hp Hb).
Qed.

(** *** Text assist, further *)

Lemma guarded_store (h : handler) req now s :
  (∀ user, store (h user req now s) = s) →
  store (guarded h req now s) = s.
Proof.
  intros Hh. unfold guarded.
  by destruct (authenticateToken req) as [[user|resp] cs]; simpl.
Qed.

Lemma post_ai_summarize_store user req now s :
  store (post_ai_summarize user req now s) = s.
Proof.
  unfold post_ai_summarize. destruct (body req !! "text") as [[|t]|]; [done| |done].
  case_bool_decide; [done|]. by destruct (createChatCompletion _).
Qed.

Lemma gemini_route_store instruction failure user req now s :
  store (gemini_route instruction failure user req now s) = s.
Proof.
  unfold gemini_route. destruct (negb _); [done|].
  by destruct (generateContent _).
Qed.

(** X18. Text assist never touches the notes.  Every text-assist route
    of every file leaves the collection as it was, for every request:
    whether it is turned away, answered, or fails at the provider. *)
Theorem assist_never_writes f a route req now s :
  serve_assist f a = Some route →
  store (route req now s) = s.
Proof.
  destruct f, a; simpl; intros [= <-];
    try (apply guarded_store; intros user;
         first [apply post_ai_summarize_store | apply gemini_route_store]).
  - unfold hf_summarize. destruct (negb _); [done|]. by destruct (query _ _).
  - unfold hf_improve. destruct (negb _); [done|]. by destruct (query _ _).
  - unfold hf_ideas. destruct (negb _); [done|]. by destruct (query _ _).
Qed.

(** A call to a text provider. *)
Lemma guarded_calls_unverified (h : handler) req now s :
  (∀ user, ¬ verified req user) →
  ∀ c, c ∈ calls (guarded h req now s) → ∃ tok aud, c = VerifyIdToken tok aud.
Proof.
  intros Hno c. unfold guarded.
  destruct (authenticateToken req) as [[user|resp] cs] eqn:E; simpl.
  { destruct (Hno user). unfold verified. by rewrite E. }
  unfold authenticateToken in E.
  destruct (token (authorization req)) as [tok|];
    [|injection E as _ <-; by intros ?%elem_of_nil].
  case_bool_decide; [injection E as _ <-; by intros ?%elem_of_nil|].
  destruct (verifyIdToken tok CLIENT_ID); [discriminate|].
  injection E as _ <-. intros ->%list_elem_of_singleton. eauto.
Qed.

(** X19. No text reaches a provider without a verified identity, where
    the route is gated.  In server.js and the two Gemini files, a request
    the middleware does not verify causes no call to a text provider,
    whatever its body: the only call that may leave the process is the
    one to the identity provider. *)
Theorem gated_assist_needs_identity f a route req now s :
  serve_assist f a = Some route →
  gated f = true →
  (∀ user, ¬ verified req user) →
  ∀ c, c ∈ calls (route req now s) → ∃ tok aud, c = VerifyIdToken tok aud.
Proof.
  intros Hroute Hg Hno.
  destruct f, a; simpl in Hroute, Hg; try discriminate;
    injection Hroute as <-; by apply guarded_calls_unverified.
Qed.

(** X20. The Hugging Face routes do not look at credentials.  On the
    three text-assist routes of the Hugging Face file the outcome depends
    on the body alone: two requests with the same body, whatever their
    Authorization headers, get the same reply and cause the same call; the
    identity provider is never called. *)
Theorem hf_routes_are_open a route req req' now now' s :
  serve_assist huggingface_js a = Some route →
  body req = body req' →
  route req now s = route req' now' s
  ∧ ∀ c, c ∈ calls (route req now s) → ∃ model inputs, c = HFQuery model inputs.
Proof.
  intros Hroute Hb.
  destruct a; simpl in Hroute; injection Hroute as <-;
    unfold hf_summarize, hf_improve, hf_ideas; rewrite Hb.
  all: split; [done|].
  all: destruct (negb _); simpl; [by intros c ?%elem_of_nil|].
  all: destruct (query _ _); simpl; intros c ->%list_elem_of_singleton; eauto.
Qed.

(** X21. Summarize of server.js, past the checks.  For a verified caller
    and a text that is not blank, the route makes exactly one call to the
    chat model, after the one to the identity provider; the message sent
    is the instruction, an empty line, and the text as received (not
    trimmed).  The reply is 200 with the model's content as [summary]
    when the call returns, and 500 "Failed to summarize text" with the
    error's message as [details] when it throws. *)
Theorem summarize_relays req user now s t :
  verified req user →
  body req !! "text" = Some (JString t) →
  trim t ≠ "" →
  let content := "Summarize this in 3-5 concise bullet points:" +:+ nl2 +:+ t in
  calls (guarded post_ai_summarize req now s)
    = ((authenticateToken req).2 ++ [ChatCompletion content])%list
  ∧ (∀ summary, createChatCompletion content = Ok summary →
       reply (guarded post_ai_summarize req now s)
         = json_ 200 (Keyed "summary" summary))
  ∧ (∀ message, createChatCompletion content = Throw message →
       reply (guarded post_ai_summarize req now s)
         = json_ 500 (ErrorDetails "Failed to summarize text" message)).
Proof.
  intros Hv Ht Hnb content.
  rewrite (guarded_verified _ _ _ _ _ Hv). simpl.
  unfold post_ai_summarize. rewrite Ht, bool_decide_false by done.
  fold content. destruct (createChatCompletion content) as [c|m]; simpl.
  - split; [done|]. split; [by intros ? [= <-]|by intros ? [=]].
  - split; [done|]. split; [by intros ? [=]|by intros ? [= <-]].
Qed.

(** *** Blank text and the parsing of ideas *)

Lemma string_length_ind (P : string → Prop) :
  (∀ s, (∀ t, String.length t < String.length s → P t) → P s) → ∀ s, P s.
Proof.
  intros step s. remember (String.length s) as n eqn:E.
  revert s E. induction (lt_wf n) as [n _ IH]. intros s ->.
  apply step. intros t Ht. by apply (IH _ Ht).
Qed.

Lemma all_space_trim_start s : all_space (trim_start s) = all_space s.
Proof.
  induction s as [s IH] using string_length_ind.
  destruct s as [|c1 s1]; [done|]. simpl.
  destruct (is_space c1) eqn:H1; [apply IH; simpl; lia|].
  destruct s1 as [|c2 s2]; [simpl; by rewrite H1|].
  destruct (is_space2 c1 c2) eqn:H2; [apply IH; simpl; lia|].
  destruct s2 as [|c3 s3]; [simpl; by rewrite H1, H2|].
  destruct (is_space3 c1 c2 c3) eqn:H3; [apply IH; simpl; lia|].
  simpl. by rewrite H1, H2, H3.
Qed.

Lemma trim_end_blank s : trim_end s = "" ↔ all_space s = true.
Proof.
  destruct s as [|c s]; [done|]. cbn [trim_end].
  by destruct (all_space (String c s)).
Qed.

Lemma trim_blank s : trim s = "" ↔ all_space s = true.
Proof. unfold trim. by rewrite trim_end_blank, all_space_trim_start. Qed.

(** X22. Blank text counts as missing in server.js only.  For a
    verified caller whose [text] is a string, POST /api/ai/summarize of
    server.js answers 400 "Text is required" exactly when the text
    consists only of what [trim] removes: the white space and line
    terminators of JavaScript, NO-BREAK SPACE and the other Unicode spaces
    included (the empty text is such a text), and then
    calls no text provider; the Gemini routes forward a non-empty blank
    text to the model like any other. *)
Theorem blank_text_is_missing_in_server_js req user now s t :
  verified req user →
  body req !! "text" = Some (JString t) →
  (reply (guarded post_ai_summarize req now s)
     = json_ 400 (Error "Text is required")
   ↔ all_space t = true)
  ∧ (all_space t = true →
     calls (guarded post_ai_summarize req now s) = (authenticateToken req).2)
  ∧ (t ≠ "" → ∀ instruction failure,
     calls (guarded (gemini_route instruction failure) req now s)
       = ((authenticateToken req).2
          ++ [GenerateContent (instruction +:+ nl2 +:+ t)])%list).
Proof.
  intros Hv Ht. rewrite !(guarded_verified _ _ _ _ _ Hv). simpl.
  unfold post_ai_summarize. rewrite Ht. split; [|split].
  - case_bool_decide as Hb.
    + split; [intros _; by apply trim_blank|done].
    + split.
      * by destruct (createChatCompletion _).
      * intros Hs. by apply trim_blank in Hs.
  - intros Hs. apply trim_blank in Hs. rewrite bool_decide_true by done.
    simpl. by rewrite app_nil_r.
  - intros Hne instruction failure. rewrite (guarded_verified _ _ _ _ _ Hv).
    simpl. unfold gemini_route. rewrite Ht. simpl.
    rewrite bool_decide_false by done. simpl.
    by destruct (generateContent _).
Qed.

Lemma append_empty_r s : s +:+ "" = s.
Proof.
  induction s as [|c s IH]; [done|].
  change (String c (s +:+ "") = String c s). by f_equal.
Qed.

Lemma append_assoc s1 s2 s3 : (s1 +:+ s2) +:+ s3 = s1 +:+ (s2 +:+ s3).
Proof.
  induction s1 as [|c s1 IH]; [done|].
  change (String c ((s1 +:+ s2) +:+ s3) = String c (s1 +:+ (s2 +:+ s3))).
  by f_equal.
Qed.

Lemma split_numbered_no_dot s cur dg :
  contains_dot s = false →
  split_numbered cur dg s = [cur +:+ dg +:+ s].
Proof.
  revert cur dg. induction s as [|c s IH]; intros cur dg; simpl.
  - intros _. by rewrite append_empty_r.
  - intros [Hc Hs]%orb_false_iff.
    destruct (is_digit c).
    + rewrite (IH _ _ Hs). by rewrite append_assoc.
    + rewrite Hc. simpl. rewrite (IH _ _ Hs). simpl.
      by rewrite !append_assoc.
Qed.

(** X23. What the ideas route of the Hugging Face file returns.  When
    the model answers, the reply is 200 with a list of ideas none of
    which is blank; the "1." the route puts in front of the generated
    text never shows up as an idea; and a generated text without a dot
    (so without a numbered item) comes back whole, as the only idea, or
    as no idea at all when it is blank. *)
Theorem ideas_are_not_blank req now s topic generated_text :
  body req !! "topic" = Some (JString topic) →
  topic ≠ "" →
  query MODELS_ideas
        ("Generate 5 creative ideas about: " +:+ topic +:+ nl2 +:+ "1.")
    = Ok generated_text →
  ∃ ideasArray,
    reply (hf_ideas req now s) = json_ 200 (Ideas ideasArray)
    ∧ ideasArray
        = filter (λ item, trim item ≠ "") (split_numbered "" "" generated_text)
    ∧ Forall (λ item, trim item ≠ "") ideasArray
    ∧ (contains_dot generated_text = false →
       ideasArray = if all_space generated_text then [] else [generated_text]).
Proof.
  intros Ht Hne Hq. unfold hf_ideas. rewrite Ht. simpl.
  rewrite bool_decide_false by done. simpl. rewrite Hq. simpl.
  eexists. split; [done|].
  change (split_numbered "" "" ("1." +:+ generated_text))
    with ("" :: split_numbered "" "" generated_text).
  rewrite filter_cons_False by (by intros H; apply H).
  split; [done|]. split.
  - apply Forall_forall. by intros item [? _]%list_elem_of_filter.
  - intros Hd. rewrite (split_numbered_no_dot _ _ _ Hd).
    change ("" +:+ "" +:+ generated_text) with generated_text.
    destruct (all_space generated_text) eqn:Hs.
    + rewrite filter_cons_False; [done|]. intros H. apply H.
      by apply trim_blank.
    + rewrite filter_cons_True; [done|]. intros H%trim_blank. congruence.
Qed.

End Server.


(** ** The properties on the concrete environment *)

#[local] Existing Instance Sample.services.

Lemma cross_user_isolation_witness :
  by_id DELETE_notes_id
  ∧ Sample.one_note !! 0%N = Some Sample.note_of_alice
  ∧ castObjectId (params_id Sample.bob) = Some 0%N
  ∧ verified Sample.bob Sample.bob_user
  ∧ id Sample.bob_user ≠ userId Sample.note_of_alice
  ∧ reply (serve DELETE_notes_id Sample.bob 3000 Sample.one_note)
      = json_ 404 (Error "Note not found")
  ∧ store (serve DELETE_notes_id Sample.bob 3000 Sample.one_note) = Sample.one_note.
Proof.
  assert (H1 : by_id DELETE_notes_id) by (right; right; reflexivity).
  assert (H2 : Sample.one_note !! 0%N = Some Sample.note_of_alice) by reflexivity.
  assert (H3 : castObjectId (params_id Sample.bob) = Some 0%N) by reflexivity.
  assert (H4 : verified Sample.bob Sample.bob_user) by reflexivity.
  assert (H5 : id Sample.bob_user ≠ userId Sample.note_of_alice) by discriminate.
  do 5 (split; [assumption|]).
  destruct (cross_user_isolation DELETE_notes_id Sample.bob Sample.bob_user 3000
              Sample.one_note 0%N Sample.note_of_alice H1 H2 H3 H4 H5)
    as (Hreply & Hstore & _).
  split; assumption.
Defined.

Lemma update_merges_witness :
  Sample.one_note !! 0%N = Some Sample.note_of_alice
  ∧ castObjectId (params_id Sample.alice_renames) = Some 0%N
  ∧ verified Sample.alice_renames Sample.alice_user
  ∧ userId Sample.note_of_alice = id Sample.alice_user
  ∧ body Sample.alice_renames !! "content" = None
  ∧ reply (serve PUT_notes_id Sample.alice_renames 3000 Sample.one_note)
      = json_ 200 (OneNote (mkNote 0%N
          (mkFields "alice" (Some "Groceries") (Some "milk, eggs") 1000 3000)))
  ∧ store (serve PUT_notes_id Sample.alice_renames 3000 Sample.one_note)
      = {[ 0%N := mkFields "alice" (Some "Groceries") (Some "milk, eggs")
                           1000 3000 ]}.
Proof.
  assert (H1 : Sample.one_note !! 0%N = Some Sample.note_of_alice) by reflexivity.
  assert (H2 : castObjectId (params_id Sample.alice_renames) = Some 0%N)
    by reflexivity.
  assert (H3 : verified Sample.alice_renames Sample.alice_user) by reflexivity.
  assert (H4 : userId Sample.note_of_alice = id Sample.alice_user) by reflexivity.
  assert (H5 : body Sample.alice_renames !! "content" = None) by reflexivity.
  do 5 (split; [assumption|]).
  destruct (update_merges Sample.alice_renames Sample.alice_user 3000
              Sample.one_note 0%N Sample.note_of_alice H1 H2 H3 H4)
    as (Hreply & Hstore & _).
  split; [exact Hreply|]. rewrite Hstore. by vm_compute.
Defined.

Lemma authentication_errors_witness :
  (authorization Sample.anonymous = None
   ∧ serve POST_notes Sample.anonymous 3000 Sample.one_note
       = mkOutcome (json_ 401 (Error "Unauthorized")) Sample.one_note [])
  ∧ ((token (authorization Sample.bearer_only) = None
      ∨ token (authorization Sample.bearer_only) = Some "")
     ∧ serve GET_notes Sample.bearer_only 3000 Sample.one_note
         = mkOutcome (json_ 401 (Error "Unauthorized")) Sample.one_note [])
  ∧ (token (authorization Sample.expired) = Some "expired.jwt"
     ∧ "expired.jwt" ≠ ""
     ∧ verifyIdToken "expired.jwt" CLIENT_ID = Throw "Invalid token signature"
     ∧ serve DELETE_notes_id Sample.expired 3000 Sample.one_note
         = mkOutcome (json_ 403 (Error "Invalid token")) Sample.one_note
                     [VerifyIdToken "expired.jwt" CLIENT_ID]).
Proof.
  split; [|split].
  - assert (H : authorization Sample.anonymous = None) by reflexivity.
    split; [exact H|].
    exact (proj1 (authentication_errors POST_notes Sample.anonymous 3000
                    Sample.one_note) H).
  - assert (H : token (authorization Sample.bearer_only) = None
                ∨ token (authorization Sample.bearer_only) = Some "")
      by (left; reflexivity).
    split; [exact H|].
    exact (proj1 (proj2 (authentication_errors GET_notes Sample.bearer_only 3000
                           Sample.one_note)) H).
  - assert (H1 : token (authorization Sample.expired) = Some "expired.jwt")
      by reflexivity.
    assert (H2 : "expired.jwt" ≠ "") by discriminate.
    assert (H3 : verifyIdToken "expired.jwt" CLIENT_ID
                 = Throw "Invalid token signature") by reflexivity.
    do 3 (split; [assumption|]).
    exact (proj2 (proj2 (authentication_errors DELETE_notes_id Sample.expired 3000
                           Sample.one_note)) _ _ H1 H2 H3).
Defined.

Lemma list_ordering_scoping_witness :
  verified Sample.alice Sample.alice_user
  ∧ Sample.three_notes !! 2%N = Some Sample.note_of_bob
  ∧ ∃ l,
      reply (serve GET_notes Sample.alice 3000 Sample.three_notes)
        = json_ 200 (Notes l)
      ∧ l = [mkNote 1%N Sample.second_note_of_alice;
             mkNote 0%N Sample.note_of_alice]
      ∧ ¬ (mkNote 2%N Sample.note_of_bob ∈ l)
      ∧ StronglySorted newer_first l
      ∧ StronglySorted strictly_newer_first l.
Proof.
  assert (H : verified Sample.alice Sample.alice_user) by reflexivity.
  split; [exact H|]. split; [reflexivity|].
  destruct (list_ordering_scoping Sample.alice Sample.alice_user 3000
              Sample.three_notes H)
    as (l & Hreply & _ & _ & Hin & _ & Hsorted & Hstrict & _).
  exists l. split; [exact Hreply|].
  assert (Hl : l = [mkNote 1%N Sample.second_note_of_alice;
                    mkNote 0%N Sample.note_of_alice]).
  { vm_compute in Hreply. by injection Hreply as <-. }
  split; [exact Hl|]. split; [|split; [exact Hsorted|]].
  - intros Hbob. apply Hin in Hbob as [_ Hu]. discriminate Hu.
  - apply Hstrict. rewrite Hl. simpl.
    apply NoDup_cons. split; [|apply NoDup_singleton].
    intros Hd. apply list_elem_of_singleton in Hd. discriminate Hd.
Defined.

Lemma create_defaults_witness :
  verified Sample.alice Sample.alice_user
  ∧ id Sample.alice_user ≠ ""
  ∧ body Sample.alice !! "title" = None
  ∧ body Sample.alice !! "content" = None
  ∧ ∃ i,
      Sample.one_note !! i = None
      ∧ reply (serve POST_notes Sample.alice 3000 Sample.one_note)
          = json_ 201 (OneNote (mkNote i (mkFields "alice" (Some "Untitled Note")
                                                   (Some "") 3000 3000))).
Proof.
  assert (H1 : verified Sample.alice Sample.alice_user) by reflexivity.
  assert (H2 : id Sample.alice_user ≠ "") by discriminate.
  assert (H3 : body Sample.alice !! "title" = None) by reflexivity.
  assert (H4 : body Sample.alice !! "content" = None) by reflexivity.
  do 4 (split; [assumption|]).
  destruct (create_defaults Sample.alice Sample.alice_user 3000 Sample.one_note
              H1 H2 H3 H4) as (i & Hfree & Hreply & _).
  exists i. split; assumption.
Defined.

Lemma create_ignores_body_userId_witness :
  verified Sample.alice Sample.alice_user
  ∧ verified Sample.alice_sets_owner Sample.alice_user
  ∧ (∀ k, k ≠ "userId" → body Sample.alice !! k = body Sample.alice_sets_owner !! k)
  ∧ body Sample.alice !! "userId" ≠ body Sample.alice_sets_owner !! "userId"
  ∧ reply (serve POST_notes Sample.alice 3000 Sample.one_note)
      = reply (serve POST_notes Sample.alice_sets_owner 3000 Sample.one_note)
  ∧ store (serve POST_notes Sample.alice 3000 Sample.one_note)
      = store (serve POST_notes Sample.alice_sets_owner 3000 Sample.one_note).
Proof.
  assert (H1 : verified Sample.alice Sample.alice_user) by reflexivity.
  assert (H2 : verified Sample.alice_sets_owner Sample.alice_user) by reflexivity.
  assert (H3 : ∀ k, k ≠ "userId" →
            body Sample.alice !! k = body Sample.alice_sets_owner !! k).
  { intros k Hk. simpl. by rewrite lookup_singleton_ne. }
  do 3 (split; [assumption|]). split; [discriminate|].
  destruct (create_ignores_body_userId Sample.alice Sample.alice_sets_owner
              Sample.alice_user 3000 Sample.one_note H1 H2 H3)
    as (Hreply & Hstore & _).
  split; assumption.
Defined.

Lemma update_failure_atomic_witness :
  verified Sample.bob Sample.bob_user
  ∧ (∀ i f, castObjectId (params_id Sample.bob) = Some i →
            Sample.one_note !! i = Some f → userId f ≠ id Sample.bob_user)
  ∧ is_Some (castObjectId (params_id Sample.bob))
  ∧ store (serve PUT_notes_id Sample.bob 3000 Sample.one_note) = Sample.one_note
  ∧ reply (serve PUT_notes_id Sample.bob 3000 Sample.one_note)
      = json_ 404 (Error "Note not found").
Proof.
  assert (H1 : verified Sample.bob Sample.bob_user) by reflexivity.
  assert (H2 : ∀ i f, castObjectId (params_id Sample.bob) = Some i →
            Sample.one_note !! i = Some f → userId f ≠ id Sample.bob_user).
  { intros i f Hi. injection Hi as <-. intros Hf. by injection Hf as <-. }
  assert (H3 : is_Some (castObjectId (params_id Sample.bob))) by (by eexists).
  do 3 (split; [assumption|]).
  destruct (update_failure_atomic Sample.bob Sample.bob_user 3000 Sample.one_note
              H1 H2) as (Hstore & Hreply).
  split; [exact Hstore|exact (Hreply H3)].
Defined.

Lemma delete_twice_witness :
  Sample.one_note !! 0%N = Some Sample.note_of_alice
  ∧ castObjectId (params_id Sample.alice) = Some 0%N
  ∧ verified Sample.alice Sample.alice_user
  ∧ userId Sample.note_of_alice = id Sample.alice_user
  ∧ reply (serve DELETE_notes_id Sample.alice 3000 Sample.one_note)
      = mkResponse 204 Empty
  ∧ reply (serve DELETE_notes_id Sample.alice 4000
             (store (serve DELETE_notes_id Sample.alice 3000 Sample.one_note)))
      = json_ 404 (Error "Note not found").
Proof.
  assert (H1 : Sample.one_note !! 0%N = Some Sample.note_of_alice) by reflexivity.
  assert (H2 : castObjectId (params_id Sample.alice) = Some 0%N) by reflexivity.
  assert (H3 : verified Sample.alice Sample.alice_user) by reflexivity.
  assert (H4 : userId Sample.note_of_alice = id Sample.alice_user) by reflexivity.
  do 4 (split; [assumption|]).
  destruct (delete_twice Sample.alice Sample.alice_user 3000 4000 Sample.one_note
              0%N Sample.note_of_alice H1 H2 H3 H4)
    as (Hfirst & _ & _ & Hsecond & _).
  split; assumption.
Defined.

Lemma assist_validation_witness :
  serve_assist server_js summarize = Some (guarded post_ai_summarize)
  ∧ (body Sample.alice !! required_field server_js summarize = None
     ∨ body Sample.alice !! required_field server_js summarize = Some JNull
     ∨ body Sample.alice !! required_field server_js summarize = Some (JString ""))
  ∧ (gated server_js = false ∨ ∃ user, verified Sample.alice user)
  ∧ (∀ c, c ∈ calls (guarded post_ai_summarize Sample.alice 3000 Sample.one_note) →
          ∃ tok aud, c = VerifyIdToken tok aud)
  ∧ ∃ message,
      reply (guarded post_ai_summarize Sample.alice 3000 Sample.one_note)
        = json_ 400 (Error message).
Proof.
  assert (H1 : serve_assist server_js summarize = Some (guarded post_ai_summarize))
    by reflexivity.
  assert (H2 : body Sample.alice !! required_field server_js summarize = None
     ∨ body Sample.alice !! required_field server_js summarize = Some JNull
     ∨ body Sample.alice !! required_field server_js summarize = Some (JString ""))
    by (left; reflexivity).
  assert (H3 : gated server_js = false ∨ ∃ user, verified Sample.alice user)
    by (right; exists Sample.alice_user; reflexivity).
  do 3 (split; [assumption|]).
  destruct (assist_validation server_js summarize (guarded post_ai_summarize)
              Sample.alice 3000 Sample.one_note H1 H2) as (_ & Hcalls & Hreply & _).
  split; [exact Hcalls|exact (Hreply H3)].
Defined.

Lemma token_extraction_witness :
  authorization Sample.bare_token = Some "alice.jwt"
  ∧ contains_space "alice.jwt" = false
  ∧ second_segment "alice.jwt" = None
  ∧ serve PUT_notes_id Sample.bare_token 3000 Sample.one_note
      = mkOutcome (json_ 401 (Error "Unauthorized")) Sample.one_note [].
Proof.
  assert (H1 : authorization Sample.bare_token = Some "alice.jwt") by reflexivity.
  assert (H2 : contains_space "alice.jwt" = false) by reflexivity.
  do 2 (split; [assumption|]).
  destruct (token_extraction Sample.bare_token "alice.jwt" H1)
    as (_ & _ & Hnone & Hreply).
  split; [exact (Hnone H2)|].
  exact (Hreply (or_introl (Hnone H2)) (note_handler PUT_notes_id) 3000%Z
           Sample.one_note).
Defined.

(** ** Where the code departs from the specification's wording *)

(** C2, as stated, fails on a request that leaves a field out: the body
    has neither [title] nor [content], the update succeeds, and the stored
    title and content are the ones the note had, not overwritten. *)
Lemma update_keeps_absent_fields :
  Sample.one_note !! 0%N = Some Sample.note_of_alice
  ∧ body Sample.alice !! "title" = None
  ∧ body Sample.alice !! "content" = None
  ∧ reply (serve PUT_notes_id Sample.alice 3000 Sample.one_note)
      = json_ 200 (OneNote (mkNote 0%N
          (mkFields "alice" (Some "Shopping") (Some "milk, eggs") 1000 3000)))
  ∧ store (serve PUT_notes_id Sample.alice 3000 Sample.one_note) !! 0%N
      = Some (mkFields "alice" (Some "Shopping") (Some "milk, eggs") 1000 3000)
  ∧ title <$> store (serve PUT_notes_id Sample.alice 3000 Sample.one_note) !! 0%N
      ≠ Some (castString (body Sample.alice !! "title")).
Proof. repeat split; by vm_compute. Qed.

(** C7, as stated, fails on an id that is no well-formed identifier: the
    request matches no note, and the reply is 500, not 404. *)
Lemma update_malformed_id_is_500 :
  verified Sample.alice_malformed_id Sample.alice_user
  ∧ (∀ i f, castObjectId (params_id Sample.alice_malformed_id) = Some i →
            Sample.one_note !! i = Some f → userId f ≠ id Sample.alice_user)
  ∧ reply (serve PUT_notes_id Sample.alice_malformed_id 3000 Sample.one_note)
      = json_ 500 (Error "Failed to update note")
  ∧ reply (serve PUT_notes_id Sample.alice_malformed_id 3000 Sample.one_note)
      ≠ json_ 404 (Error "Note not found").
Proof.
  split; [reflexivity|]. split; [by intros i f ?|]. split; [reflexivity|].
  by vm_compute.
Qed.

(** C9, as stated, fails on server.js for a request that does not pass the
    middleware: the text is missing and the reply is 401, not 400. *)
Lemma summarize_without_token_is_401 :
  serve_assist server_js summarize = Some (guarded post_ai_summarize)
  ∧ body Sample.anonymous !! required_field server_js summarize = None
  ∧ reply (guarded post_ai_summarize Sample.anonymous 3000 Sample.one_note)
      = json_ 401 (Error "Unauthorized")
  ∧ status (reply (guarded post_ai_summarize Sample.anonymous 3000 Sample.one_note))
      ≠ 400%Z.
Proof. repeat split; by vm_compute. Qed.

(** C10, as stated, fails on a header value with two spaces: the token is
    the text between them, not the substring after the first space, and
    it is that text the identity provider is asked about. *)
Lemma token_is_not_the_rest_of_the_header :
  after_first_space "Bearer a b" = Some "a b"
  ∧ token (authorization Sample.two_words) = Some "a"
  ∧ token (authorization Sample.two_words) ≠ after_first_space "Bearer a b"
  ∧ calls (serve GET_notes Sample.two_words 3000 Sample.one_note)
      = [VerifyIdToken "a" CLIENT_ID].
Proof. repeat split; by vm_compute. Qed.

(** ** Further properties on the concrete environment *)

Lemma owner_and_creation_time_are_kept_witness :
  Sample.three_notes !! 0%N = Some Sample.note_of_alice
  ∧ store (serve PUT_notes_id Sample.alice_renames 3000 Sample.three_notes) !! 0%N
      = Some (mkFields "alice" (Some "Groceries") (Some "milk, eggs") 1000 3000)
  ∧ userId (mkFields "alice" (Some "Groceries") (Some "milk, eggs") 1000 3000)
      = userId Sample.note_of_alice
  ∧ createdAt (mkFields "alice" (Some "Groceries") (Some "milk, eggs") 1000 3000)
      = createdAt Sample.note_of_alice.
Proof.
  assert (H1 : Sample.three_notes !! 0%N = Some Sample.note_of_alice)
    by reflexivity.
  assert (H2 : store (serve PUT_notes_id Sample.alice_renames 3000
                        Sample.three_notes) !! 0%N
               = Some (mkFields "alice" (Some "Groceries") (Some "milk, eggs") 1000 3000))
    by (vm_compute; reflexivity).
  do 2 (split; [assumption|]).
  exact (owner_and_creation_time_are_kept PUT_notes_id Sample.alice_renames 3000
           Sample.three_notes 0%N _ _ H1 H2).
Defined.

Lemma foreign_notes_untouched_witness :
  Sample.three_notes !! 2%N = Some Sample.note_of_bob
  ∧ (∀ user, verified Sample.alice user → id user ≠ userId Sample.note_of_bob)
  ∧ store (serve DELETE_notes_id Sample.alice 3000 Sample.three_notes) !! 2%N
      = Some Sample.note_of_bob.
Proof.
  assert (H1 : Sample.three_notes !! 2%N = Some Sample.note_of_bob)
    by reflexivity.
  assert (H2 : ∀ user, verified Sample.alice user →
                 id user ≠ userId Sample.note_of_bob).
  { intros user Hv. vm_compute in Hv. injection Hv as <-. discriminate. }
  do 2 (split; [assumption|]).
  exact (foreign_notes_untouched DELETE_notes_id Sample.alice 3000
           Sample.three_notes 2%N _ H1 H2).
Defined.

Lemma by_id_touches_one_witness :
  by_id DELETE_notes_id
  ∧ castObjectId (params_id Sample.alice) ≠ Some 1%N
  ∧ store (serve DELETE_notes_id Sample.alice 3000 Sample.three_notes) !! 1%N
      = Sample.three_notes !! 1%N.
Proof.
  assert (H1 : by_id DELETE_notes_id) by (right; right; reflexivity).
  assert (H2 : castObjectId (params_id Sample.alice) ≠ Some 1%N)
    by (vm_compute; discriminate).
  do 2 (split; [assumption|]).
  exact (by_id_touches_one DELETE_notes_id Sample.alice 3000 Sample.three_notes
           1%N H1 H2).
Defined.

Lemma errors_do_not_write_witness :
  (400 ≤ status (reply (serve PUT_notes_id Sample.bob 3000 Sample.three_notes)))%Z
  ∧ store (serve PUT_notes_id Sample.bob 3000 Sample.three_notes)
      = Sample.three_notes.
Proof.
  assert (H : (400 ≤ status (reply (serve PUT_notes_id Sample.bob 3000
                                      Sample.three_notes)))%Z)
    by (vm_compute; discriminate).
  split; [exact H|].
  exact (errors_do_not_write PUT_notes_id Sample.bob 3000 Sample.three_notes H).
Defined.

Lemma create_adds_one_witness :
  verified Sample.alice_writes Sample.alice_user
  ∧ id Sample.alice_user ≠ ""
  ∧ ∃ i f,
      Sample.three_notes !! i = None
      ∧ reply (serve POST_notes Sample.alice_writes 3000 Sample.three_notes)
          = json_ 201 (OneNote (mkNote i f))
      ∧ size (store (serve POST_notes Sample.alice_writes 3000 Sample.three_notes))
          = 4%nat.
Proof.
  assert (H1 : verified Sample.alice_writes Sample.alice_user) by reflexivity.
  assert (H2 : id Sample.alice_user ≠ "") by discriminate.
  do 2 (split; [assumption|]).
  destruct (create_adds_one Sample.alice_writes Sample.alice_user 3000
              Sample.three_notes H1 H2)
    as (i & f & Hfree & Hreply & _ & _ & _ & _ & Hsize & _).
  exists i, f. do 2 (split; [assumption|]). exact Hsize.
Defined.

Lemma created_title_and_content_witness :
  reply (serve POST_notes Sample.alice_empty_title 3000 Sample.one_note)
    = json_ 201 (OneNote (mkNote 1%N (mkFields "alice" (Some "Untitled Note")
                                                (Some "") 3000 3000)))
  ∧ title (mkFields "alice" (Some "Untitled Note") (Some "") 3000 3000) ≠ Some "".
Proof.
  assert (H : reply (serve POST_notes Sample.alice_empty_title 3000 Sample.one_note)
    = json_ 201 (OneNote (mkNote 1%N (mkFields "alice" (Some "Untitled Note")
                                                (Some "") 3000 3000))))
    by (vm_compute; reflexivity).
  split; [exact H|].
  exact (proj1 (proj2 (proj2 (created_title_and_content Sample.alice_empty_title
                                3000 Sample.one_note _ H)))).
Defined.

Lemma create_without_subject_witness :
  verified (services := Sample.other_services) Sample.nobody Sample.nobody_user
  ∧ id Sample.nobody_user = ""
  ∧ reply (serve (services := Sample.other_services) POST_notes Sample.nobody 3000
             Sample.one_note)
      = json_ 500 (Error "Failed to create note")
  ∧ store (serve (services := Sample.other_services) POST_notes Sample.nobody 3000
             Sample.one_note)
      = Sample.one_note.
Proof.
  assert (H1 : verified (services := Sample.other_services) Sample.nobody
                 Sample.nobody_user) by reflexivity.
  assert (H2 : id Sample.nobody_user = "") by reflexivity.
  do 2 (split; [assumption|]).
  exact (create_without_subject (services := Sample.other_services) Sample.nobody
           Sample.nobody_user 3000 Sample.one_note H1 H2).
Defined.

Lemma get_note_sound_and_complete_witness :
  (∃ user, verified Sample.alice user
           ∧ castObjectId (params_id Sample.alice) = Some 0%N
           ∧ Sample.one_note !! 0%N = Some Sample.note_of_alice
           ∧ userId Sample.note_of_alice = id user)
  ∧ reply (serve GET_notes_id Sample.alice 3000 Sample.one_note)
      = json_ 200 (OneNote (mkNote 0%N Sample.note_of_alice)).
Proof.
  assert (H : ∃ user, verified Sample.alice user
           ∧ castObjectId (params_id Sample.alice)
               = Some (_id (mkNote 0%N Sample.note_of_alice))
           ∧ Sample.one_note !! _id (mkNote 0%N Sample.note_of_alice)
               = Some (fields (mkNote 0%N Sample.note_of_alice))
           ∧ userId (fields (mkNote 0%N Sample.note_of_alice)) = id user).
  { exists Sample.alice_user. repeat split; reflexivity. }
  split; [exact H|].
  exact (proj2 (get_note_sound_and_complete Sample.alice 3000 Sample.one_note
                  (mkNote 0%N Sample.note_of_alice)) H).
Defined.

Lemma update_then_read_witness :
  Sample.three_notes !! 0%N = Some Sample.note_of_alice
  ∧ userId Sample.note_of_alice = id Sample.alice_user
  ∧ verified Sample.alice_renames Sample.alice_user
  ∧ castObjectId (params_id Sample.alice_renames) = Some 0%N
  ∧ verified Sample.alice Sample.alice_user
  ∧ castObjectId (params_id Sample.alice) = Some 0%N
  ∧ reply (serve GET_notes_id Sample.alice 4000
             (store (serve PUT_notes_id Sample.alice_renames 3000
                       Sample.three_notes)))
      = reply (serve PUT_notes_id Sample.alice_renames 3000 Sample.three_notes).
Proof.
  assert (H1 : Sample.three_notes !! 0%N = Some Sample.note_of_alice)
    by reflexivity.
  assert (H2 : userId Sample.note_of_alice = id Sample.alice_user) by reflexivity.
  assert (H3 : verified Sample.alice_renames Sample.alice_user) by reflexivity.
  assert (H4 : castObjectId (params_id Sample.alice_renames) = Some 0%N)
    by reflexivity.
  assert (H5 : verified Sample.alice Sample.alice_user) by reflexivity.
  assert (H6 : castObjectId (params_id Sample.alice) = Some 0%N) by reflexivity.
  do 6 (split; [assumption|]).
  exact (update_then_read Sample.alice_renames Sample.alice Sample.alice_user
           3000 4000 Sample.three_notes 0%N Sample.note_of_alice
           H1 H2 H3 H4 H5 H6).
Defined.

Lemma updates_merge_witness :
  Sample.three_notes !! 0%N = Some Sample.note_of_alice
  ∧ userId Sample.note_of_alice = id Sample.alice_user
  ∧ verified Sample.alice_writes Sample.alice_user
  ∧ castObjectId (params_id Sample.alice_writes) = Some 0%N
  ∧ verified Sample.alice_renames Sample.alice_user
  ∧ castObjectId (params_id Sample.alice_renames) = Some 0%N
  ∧ verified Sample.alice_merged Sample.alice_user
  ∧ castObjectId (params_id Sample.alice_merged) = Some 0%N
  ∧ body Sample.alice_merged = body Sample.alice_renames ∪ body Sample.alice_writes
  ∧ reply (serve PUT_notes_id Sample.alice_renames 4000
             (store (serve PUT_notes_id Sample.alice_writes 3000
                       Sample.three_notes)))
      = json_ 200 (OneNote (mkNote 0%N
          (mkFields "alice" (Some "Groceries") (Some "call Bob") 1000 4000))).
Proof.
  assert (H1 : Sample.three_notes !! 0%N = Some Sample.note_of_alice)
    by reflexivity.
  assert (H2 : userId Sample.note_of_alice = id Sample.alice_user) by reflexivity.
  assert (H3 : verified Sample.alice_writes Sample.alice_user) by reflexivity.
  assert (H4 : castObjectId (params_id Sample.alice_writes) = Some 0%N)
    by reflexivity.
  assert (H5 : verified Sample.alice_renames Sample.alice_user) by reflexivity.
  assert (H6 : castObjectId (params_id Sample.alice_renames) = Some 0%N)
    by reflexivity.
  assert (H7 : verified Sample.alice_merged Sample.alice_user) by reflexivity.
  assert (H8 : castObjectId (params_id Sample.alice_merged) = Some 0%N)
    by reflexivity.
  assert (H9 : body Sample.alice_merged
               = body Sample.alice_renames ∪ body Sample.alice_writes)
    by (vm_compute; reflexivity).
  do 9 (split; [assumption|]).
  rewrite (proj1 (updates_merge Sample.alice_writes Sample.alice_renames
                    Sample.alice_merged Sample.alice_user 3000 4000
                    Sample.three_notes 0%N Sample.note_of_alice
                    H1 H2 H3 H4 H5 H6 H7 H8 H9)).
  reflexivity.
Defined.

Lemma updated_note_is_listed_first_witness :
  Sample.three_notes !! 0%N = Some Sample.note_of_alice
  ∧ userId Sample.note_of_alice = id Sample.alice_user
  ∧ verified Sample.alice_renames Sample.alice_user
  ∧ castObjectId (params_id Sample.alice_renames) = Some 0%N
  ∧ (∀ j g, j ≠ 0%N → Sample.three_notes !! j = Some g →
            userId g = id Sample.alice_user → (updatedAt g < 3000)%Z)
  ∧ verified Sample.alice Sample.alice_user
  ∧ ∃ n rest,
      reply (serve PUT_notes_id Sample.alice_renames 3000 Sample.three_notes)
        = json_ 200 (OneNote n)
      ∧ reply (serve GET_notes Sample.alice 4000
                 (store (serve PUT_notes_id Sample.alice_renames 3000
                           Sample.three_notes)))
          = json_ 200 (Notes (n :: rest)).
Proof.
  assert (H1 : Sample.three_notes !! 0%N = Some Sample.note_of_alice)
    by reflexivity.
  assert (H2 : userId Sample.note_of_alice = id Sample.alice_user) by reflexivity.
  assert (H3 : verified Sample.alice_renames Sample.alice_user) by reflexivity.
  assert (H4 : castObjectId (params_id Sample.alice_renames) = Some 0%N)
    by reflexivity.
  assert (H5 : ∀ j g, j ≠ 0%N → Sample.three_notes !! j = Some g →
            userId g = id Sample.alice_user → (updatedAt g < 3000)%Z).
  { intros j g Hj Hg Hu. unfold Sample.three_notes in Hg.
    rewrite lookup_insert_ne in Hg by done.
    rewrite lookup_insert in Hg. case_decide.
    - injection Hg as <-. simpl. lia.
    - rewrite lookup_singleton in Hg. case_decide; [|discriminate].
      injection Hg as <-. discriminate. }
  assert (H6 : verified Sample.alice Sample.alice_user) by reflexivity.
  do 6 (split; [assumption|]).
  exact (updated_note_is_listed_first Sample.alice_renames Sample.alice
           Sample.alice_user 3000 4000 Sample.three_notes 0%N
           Sample.note_of_alice H1 H2 H3 H4 H5 H6).
Defined.

Lemma create_then_list_witness :
  verified Sample.alice_writes Sample.alice_user
  ∧ id Sample.alice_user ≠ ""
  ∧ verified Sample.bob Sample.bob_user
  ∧ ∃ created before after,
      reply (serve POST_notes Sample.alice_writes 3000 Sample.three_notes)
        = json_ 201 (OneNote created)
      ∧ reply (serve GET_notes Sample.bob 4000 Sample.three_notes)
          = json_ 200 (Notes before)
      ∧ reply (serve GET_notes Sample.bob 4000
                 (store (serve POST_notes Sample.alice_writes 3000
                           Sample.three_notes)))
          = json_ 200 (Notes after)
      ∧ ∀ n, n ∈ after ↔
             n ∈ before ∨ (n = created ∧ id Sample.bob_user = id Sample.alice_user).
Proof.
  assert (H1 : verified Sample.alice_writes Sample.alice_user) by reflexivity.
  assert (H2 : id Sample.alice_user ≠ "") by discriminate.
  assert (H3 : verified Sample.bob Sample.bob_user) by reflexivity.
  do 3 (split; [assumption|]).
  exact (create_then_list Sample.alice_writes Sample.bob Sample.alice_user
           Sample.bob_user 3000 4000 Sample.three_notes H1 H2 H3).
Defined.

Lemma delete_then_list_witness :
  Sample.three_notes !! 0%N = Some Sample.note_of_alice
  ∧ userId Sample.note_of_alice = id Sample.alice_user
  ∧ verified Sample.alice Sample.alice_user
  ∧ castObjectId (params_id Sample.alice) = Some 0%N
  ∧ ∃ before after,
      reply (serve GET_notes Sample.alice 4000 Sample.three_notes)
        = json_ 200 (Notes before)
      ∧ reply (serve GET_notes Sample.alice 4000
                 (store (serve DELETE_notes_id Sample.alice 3000
                           Sample.three_notes)))
          = json_ 200 (Notes after)
      ∧ (∀ n, n ∈ after ↔ n ∈ before ∧ _id n ≠ 0%N)
      ∧ reply (serve GET_notes_id Sample.alice 4000
                 (store (serve DELETE_notes_id Sample.alice 3000
                           Sample.three_notes)))
          = json_ 404 (Error "Note not found").
Proof.
  assert (H1 : Sample.three_notes !! 0%N = Some Sample.note_of_alice)
    by reflexivity.
  assert (H2 : userId Sample.note_of_alice = id Sample.alice_user) by reflexivity.
  assert (H3 : verified Sample.alice Sample.alice_user) by reflexivity.
  assert (H4 : castObjectId (params_id Sample.alice) = Some 0%N) by reflexivity.
  do 4 (split; [assumption|]).
  destruct (delete_then_list Sample.alice Sample.alice Sample.alice_user
              Sample.alice_user 3000 4000 Sample.three_notes 0%N
              Sample.note_of_alice H1 H2 H3 H4 H3)
    as (before & after & Hb & Ha & Hin & Hgone).
  exists before, after. do 3 (split; [assumption|]). exact (Hgone H4).
Defined.

Lemma create_then_delete_witness :
  verified Sample.alice_writes Sample.alice_user
  ∧ reply (serve POST_notes Sample.alice_writes 3000 Sample.one_note)
      = json_ 201 (OneNote (mkNote 1%N (mkFields "alice" (Some "Plan")
                                                  (Some "call Bob") 3000 3000)))
  ∧ verified Sample.alice_second_note Sample.alice_user
  ∧ castObjectId (params_id Sample.alice_second_note) = Some 1%N
  ∧ store (serve DELETE_notes_id Sample.alice_second_note 4000
             (store (serve POST_notes Sample.alice_writes 3000 Sample.one_note)))
      = Sample.one_note.
Proof.
  assert (H1 : verified Sample.alice_writes Sample.alice_user) by reflexivity.
  assert (H2 : reply (serve POST_notes Sample.alice_writes 3000 Sample.one_note)
      = json_ 201 (OneNote (mkNote 1%N (mkFields "alice" (Some "Plan")
                                                  (Some "call Bob") 3000 3000))))
    by (vm_compute; reflexivity).
  assert (H3 : verified Sample.alice_second_note Sample.alice_user)
    by reflexivity.
  assert (H4 : castObjectId (params_id Sample.alice_second_note) = Some 1%N)
    by reflexivity.
  do 4 (split; [assumption|]).
  exact (proj2 (create_then_delete Sample.alice_writes Sample.alice_second_note
                  Sample.alice_user 3000 4000 Sample.one_note _ H1 H2 H3 H4)).
Defined.

Lemma scheme_is_not_checked_witness :
  contains_space "Basic" = false
  ∧ contains_space "alice.jwt" = false
  ∧ authorization Sample.alice = Some ("Bearer " +:+ "alice.jwt")
  ∧ authorization Sample.alice_basic = Some ("Basic" +:+ " " +:+ "alice.jwt")
  ∧ params_id Sample.alice_basic = params_id Sample.alice
  ∧ body Sample.alice_basic = body Sample.alice
  ∧ authenticateToken Sample.alice_basic = authenticateToken Sample.alice.
Proof.
  assert (H1 : contains_space "Basic" = false) by reflexivity.
  assert (H2 : contains_space "alice.jwt" = false) by reflexivity.
  assert (H3 : authorization Sample.alice = Some ("Bearer " +:+ "alice.jwt"))
    by reflexivity.
  assert (H4 : authorization Sample.alice_basic
               = Some ("Basic" +:+ " " +:+ "alice.jwt")) by reflexivity.
  assert (H5 : params_id Sample.alice_basic = params_id Sample.alice)
    by reflexivity.
  assert (H6 : body Sample.alice_basic = body Sample.alice) by reflexivity.
  do 6 (split; [assumption|]).
  exact (proj1 (scheme_is_not_checked "Basic" "alice.jwt" Sample.alice
                  Sample.alice_basic H1 H2 H3 H4 H5 H6)).
Defined.

Lemma assist_never_writes_witness :
  serve_assist server_js summarize = Some (guarded post_ai_summarize)
  ∧ store (guarded post_ai_summarize (Sample.alice_asks "hello") 3000
             Sample.three_notes)
      = Sample.three_notes.
Proof.
  assert (H : serve_assist server_js summarize = Some (guarded post_ai_summarize))
    by reflexivity.
  split; [exact H|].
  exact (assist_never_writes server_js summarize _ (Sample.alice_asks "hello")
           3000 Sample.three_notes H).
Defined.

Lemma gated_assist_needs_identity_witness :
  serve_assist gemini_js improve
    = Some (guarded (gemini_route
        "Improve the following text by making it more clear, concise, and professional:"
        "Failed to improve text"))
  ∧ gated gemini_js = true
  ∧ (∀ user, ¬ verified Sample.expired user)
  ∧ ∀ c, c ∈ calls (guarded (gemini_route
        "Improve the following text by making it more clear, concise, and professional:"
        "Failed to improve text") Sample.expired 3000 Sample.one_note) →
      ∃ tok aud, c = VerifyIdToken tok aud.
Proof.
  assert (H1 : serve_assist gemini_js improve
    = Some (guarded (gemini_route
        "Improve the following text by making it more clear, concise, and professional:"
        "Failed to improve text"))) by reflexivity.
  assert (H2 : gated gemini_js = true) by reflexivity.
  assert (H3 : ∀ user, ¬ verified Sample.expired user).
  { intros user Hv. vm_compute in Hv. discriminate. }
  do 3 (split; [assumption|]).
  exact (gated_assist_needs_identity gemini_js improve _ Sample.expired 3000
           Sample.one_note H1 H2 H3).
Defined.

Lemma hf_routes_are_open_witness :
  serve_assist huggingface_js ideas = Some hf_ideas
  ∧ body Sample.anonymous_topic = body Sample.bob_topic
  ∧ hf_ideas Sample.anonymous_topic 3000 Sample.one_note
      = hf_ideas Sample.bob_topic 4000 Sample.one_note.
Proof.
  assert (H1 : serve_assist huggingface_js ideas = Some hf_ideas) by reflexivity.
  assert (H2 : body Sample.anonymous_topic = body Sample.bob_topic)
    by reflexivity.
  do 2 (split; [assumption|]).
  exact (proj1 (hf_routes_are_open ideas hf_ideas Sample.anonymous_topic
                  Sample.bob_topic 3000 4000 Sample.one_note H1 H2)).
Defined.

Lemma summarize_relays_witness :
  verified (Sample.alice_asks " hello ") Sample.alice_user
  ∧ body (Sample.alice_asks " hello ") !! "text" = Some (JString " hello ")
  ∧ trim " hello " ≠ ""
  ∧ createChatCompletion
      ("Summarize this in 3-5 concise bullet points:" +:+ nl2 +:+ " hello ")
      = Ok "- a summary"
  ∧ reply (guarded post_ai_summarize (Sample.alice_asks " hello ") 3000
             Sample.one_note)
      = json_ 200 (Keyed "summary" "- a summary").
Proof.
  assert (H1 : verified (Sample.alice_asks " hello ") Sample.alice_user)
    by reflexivity.
  assert (H2 : body (Sample.alice_asks " hello ") !! "text"
               = Some (JString " hello ")) by reflexivity.
  assert (H3 : trim " hello " ≠ "") by (vm_compute; discriminate).
  assert (H4 : createChatCompletion
      ("Summarize this in 3-5 concise bullet points:" +:+ nl2 +:+ " hello ")
      = Ok "- a summary") by reflexivity.
  do 4 (split; [assumption|]).
  exact (proj1 (proj2 (summarize_relays (Sample.alice_asks " hello ")
                         Sample.alice_user 3000 Sample.one_note " hello "
                         H1 H2 H3)) _ H4).
Defined.

Lemma blank_text_is_missing_in_server_js_witness :
  verified (Sample.alice_asks Sample.blank) Sample.alice_user
  ∧ body (Sample.alice_asks Sample.blank) !! "text" = Some (JString Sample.blank)
  ∧ all_space Sample.blank = true
  ∧ reply (guarded post_ai_summarize (Sample.alice_asks Sample.blank) 3000
             Sample.one_note)
      = json_ 400 (Error "Text is required").
Proof.
  assert (H1 : verified (Sample.alice_asks Sample.blank) Sample.alice_user)
    by reflexivity.
  assert (H2 : body (Sample.alice_asks Sample.blank) !! "text"
               = Some (JString Sample.blank)) by reflexivity.
  assert (H3 : all_space Sample.blank = true) by reflexivity.
  do 3 (split; [assumption|]).
  exact (proj2 (proj1 (blank_text_is_missing_in_server_js
                         (Sample.alice_asks Sample.blank) Sample.alice_user 3000
                         Sample.one_note Sample.blank H1 H2)) H3).
Defined.

Lemma ideas_are_not_blank_witness :
  body Sample.anonymous_topic !! "topic" = Some (JString "tea")
  ∧ "tea" ≠ ""
  ∧ query (Services := Sample.other_services) MODELS_ideas
      ("Generate 5 creative ideas about: " +:+ "tea" +:+ nl2 +:+ "1.")
      = Ok "brew it cold"
  ∧ contains_dot "brew it cold" = false
  ∧ reply (hf_ideas (services := Sample.other_services) Sample.anonymous_topic
             3000 Sample.one_note)
      = json_ 200 (Ideas ["brew it cold"]).
Proof.
  assert (H1 : body Sample.anonymous_topic !! "topic" = Some (JString "tea"))
    by reflexivity.
  assert (H2 : "tea" ≠ "") by discriminate.
  assert (H3 : query (Services := Sample.other_services) MODELS_ideas
      ("Generate 5 creative ideas about: " +:+ "tea" +:+ nl2 +:+ "1.")
      = Ok "brew it cold") by reflexivity.
  assert (H4 : contains_dot "brew it cold" = false) by reflexivity.
  do 4 (split; [assumption|]).
  destruct (ideas_are_not_blank (services := Sample.other_services)
              Sample.anonymous_topic 3000 Sample.one_note "tea" "brew it cold"
              H1 H2 H3) as (l & Hreply & _ & _ & Hplain).
  rewrite Hreply, (Hplain H4). reflexivity.
Defined.
